(** * Request validation of the document-generation service

    A shallow embedding of the validation middleware (the file that
    exports [init], [validateCarbone] and [validateTemplate]) and the
    properties its specification states about it.

    Layout: JavaScript values and the few language operations the
    validators rely on; the external collaborators; the I/O world of the
    size check; the validators in the order of the source; then the
    theorems. *)

From Stdlib Require Import ZArith Ascii String.
From Stdlib.Strings Require Import Byte.
From stdpp Require Import gmap strings list fin_maps pretty.

Set Warnings "-register-all".

Open Scope string_scope.

(** ** JavaScript values *)

(** Numbers are carried as integers plus NaN: the validators only look at
    whether a number is zero or NaN, and compare a byte count with a file
    size. *)
Inductive number :=
| NaN
| Num (z : Z).

(** What a parsed JSON body is made of, plus [undefined] for a property
    that is not there. *)
Inductive jsval :=
| VUndefined
| VNull
| VBool (b : bool)
| VNum (n : number)
| VStr (s : string)
| VArr (items : list jsval)
| VObj (fields : gmap string jsval).

(** A request body as the JSON body parser delivers it: an object.  (An
    array body has none of the properties read below and so behaves as
    the empty object.) *)
Abbreviation object := (gmap string jsval).

(** [o.k] on an object whose own properties are [o]; none of the names
    read by the validators is inherited. *)
Definition prop (o : object) (k : string) : jsval :=
  default VUndefined (o !! k).

(** [v.k] on a value.  Every use sits behind a guard that has shown [v]
    to be truthy, so the TypeError of a [null] or [undefined] receiver
    does not arise; primitives and arrays have none of the names read. *)
Definition member (v : jsval) (k : string) : jsval :=
  match v with
  | VObj o => prop o k
  | _ => VUndefined
  end.

(** ToBoolean. *)
Definition truthy (v : jsval) : bool :=
  match v with
  | VUndefined | VNull => false
  | VBool b => b
  | VNum NaN => false
  | VNum (Num z) => negb (z =? 0)%Z
  | VStr s => negb (String.length s =? 0)%nat
  | VArr _ | VObj _ => true
  end.

(** [a || b] and [a && b] on values. *)
Definition js_or (a b : jsval) : jsval := if truthy a then a else b.
Definition js_and (a b : jsval) : jsval := if truthy a then b else a.

(** Exceptions. *)
Inductive exn :=
| TypeError
| Error (message : string)
| IOError.

Inductive result (A : Type) :=
| Ok (a : A)
| Throw (e : exn).
Arguments Ok {A} a.
Arguments Throw {A} e.

Definition rbind {A B} (r : result A) (k : A -> result B) : result B :=
  match r with
  | Ok a => k a
  | Throw e => Throw e
  end.

(** *** Strings

    Strings are sequences of code units below 256 (Latin-1). *)

Definition lower_char (c : ascii) : ascii :=
  let n := nat_of_ascii c in
  if (((65 <=? n) && (n <=? 90))
      || ((192 <=? n) && (n <=? 222) && negb (n =? 215)))%nat
  then ascii_of_nat (n + 32)
  else c.

(** [String.prototype.toLowerCase]. *)
Fixpoint toLowerCase (s : string) : string :=
  match s with
  | EmptyString => EmptyString
  | String c r => String (lower_char c) (toLowerCase r)
  end.

(** [v.toLowerCase()]: only strings have the method. *)
Definition call_toLowerCase (v : jsval) : result string :=
  match v with
  | VStr s => Ok (toLowerCase s)
  | _ => Throw TypeError
  end.

(** White space and line terminators, as [String.prototype.trim] sees
    them: TAB, LF, VT, FF, CR, SP and NBSP. *)
Definition is_whitespace (c : ascii) : bool :=
  let n := nat_of_ascii c in
  (((9 <=? n) && (n <=? 13)) || (n =? 32) || (n =? 160))%nat.

Fixpoint trim_start (l : list ascii) : list ascii :=
  match l with
  | c :: r => if is_whitespace c then trim_start r else l
  | [] => []
  end.

Definition trim (s : string) : string :=
  string_of_list_ascii
    (rev (trim_start (rev (trim_start (list_ascii_of_string s))))).

(** *** Loose equality with the empty string

    [v == ""] converts an array or object operand to a primitive.  An
    array is joined with commas, [null] and [undefined] elements
    contributing nothing; an object answers ["[object Object]"], unless an
    own [toString] property (which JSON cannot make callable) hides the
    inherited method, and then no primitive is found. *)
Fixpoint stringifies_empty (v : jsval) : result bool :=
  match v with
  | VUndefined | VNull => Ok true
  | VBool _ | VNum _ => Ok false
  | VStr s => Ok (String.length s =? 0)%nat
  | VArr items =>
      let fix all_ok (l : list jsval) : result unit :=
        match l with
        | [] => Ok tt
        | x :: r => rbind (stringifies_empty x) (fun _ => all_ok r)
        end in
      rbind (all_ok items) (fun _ =>
        match items with
        | [] => Ok true
        | [x] => stringifies_empty x
        | _ => Ok false
        end)
  | VObj o =>
      match o !! "toString" with
      | Some _ => Throw TypeError
      | None => Ok false
      end
  end.

Definition loose_eq_empty (v : jsval) : result bool :=
  match v with
  | VUndefined | VNull => Ok false
  | VBool b => Ok (negb b)
  | VNum NaN => Ok false
  | VNum (Num z) => Ok (z =? 0)%Z
  | _ => stringifies_empty v
  end.

(** ** External collaborators *)

(** The names every ordinary object inherits from [Object.prototype]. *)
Definition object_prototype_names : list string :=
  [ "constructor"; "__defineGetter__"; "__defineSetter__"; "hasOwnProperty";
    "__lookupGetter__"; "__lookupSetter__"; "isPrototypeOf";
    "propertyIsEnumerable"; "toString"; "valueOf"; "__proto__";
    "toLocaleString" ].

(** What the middleware imports and does not own:
    - [fileTypes]: the rendering package's table, input type to the list
      of output types it converts to (its own properties);
    - [telejson_parse]: whether [telejson.parse] accepts its argument (it
      throws otherwise);
    - [bytes_parse]: [bytes.parse], which answers a number, or [null] for
      what it cannot parse, and does not throw;
    - [bytes_format]: the text [bytes.format (limit, "MB")] puts in the
      message;
    - [Buffer_from]: the bytes [Buffer.from (content, encoding)] decodes. *)
Class Externals := {
  fileTypes : gmap string (list string);
  telejson_parse : jsval -> bool;
  bytes_parse : jsval -> option number;
  bytes_format : jsval -> string;
  Buffer_from : jsval -> jsval -> list byte;
}.

(** What reading the table at a name yields: a list of targets, something
    inherited from [Object.prototype] (truthy, and without an [includes]
    method), or [undefined]. *)
Inductive table_entry :=
| Targets (outputs : list string)
| Inherited
| Missing.

(** [fileTypes[k]]. *)
Definition table_get `{Externals} (k : string) : table_entry :=
  match fileTypes !! k with
  | Some l => Targets l
  | None => if bool_decide (k ∈ object_prototype_names) then Inherited else Missing
  end.

Arguments table_get : simpl never.

(** [k in fileTypes]: own and inherited properties alike. *)
Definition table_in `{Externals} (k : string) : bool :=
  match table_get k with
  | Missing => false
  | _ => true
  end.

(** ** The I/O world of the size check *)

Inductive io_event :=
| TmpCreate (name : nat)
| WriteFile (name : nat) (written : nat)
| StatFile (name : nat)
| TmpRemove (name : nat)
| ConsoleLog (e : exn)
| Failed.

(** The temporary files that exist, the outcome of the fallible file
    operations still to come ([true]: the operation fails; past the end of
    the plan every operation succeeds), and what has happened so far. *)
Record world := World {
  tmp_files : gmap nat (list byte);
  faults : list bool;
  io_log : list io_event;
}.

Definition io (A : Type) : Type := world -> result A * world.

Definition record (ev : io_event) (w : world) : world :=
  World (tmp_files w) (faults w) (io_log w ++ [ev]).

Definition set_files (m : gmap nat (list byte)) (w : world) : world :=
  World m (faults w) (io_log w).

(** Consult the plan for the next fallible operation. *)
Definition next_fault (w : world) : bool * world :=
  match faults w with
  | [] => (false, w)
  | b :: rest => (b, World (tmp_files w) rest (io_log w))
  end.

(** [tmp.fileSync ()]: a fresh, empty file. *)
Definition tmp_fileSync : io nat := fun w =>
  let (bad, w) := next_fault w in
  if bad then (Throw IOError, record Failed w)
  else
    let name := fresh (dom (tmp_files w)) in
    (Ok name, record (TmpCreate name) (set_files (<[name := []]> (tmp_files w)) w)).

(** [fs.promises.writeFile (name, data)], awaited. *)
Definition writeFile (name : nat) (data : list byte) : io unit := fun w =>
  let (bad, w) := next_fault w in
  if bad then (Throw IOError, record Failed w)
  else
    (Ok tt, record (WriteFile name (length data))
              (set_files (<[name := data]> (tmp_files w)) w)).

(** [fs.statSync (name).size]. *)
Definition statSync_size (name : nat) : io Z := fun w =>
  let (bad, w) := next_fault w in
  if bad then (Throw IOError, record Failed w)
  else
    match tmp_files w !! name with
    | Some data => (Ok (Z.of_nat (length data)), record (StatFile name) w)
    | None => (Throw IOError, record Failed w)
    end.

(** [tmpFile.removeCallback ()]. *)
Definition removeCallback (name : nat) (w : world) : world :=
  record (TmpRemove name) (set_files (delete name (tmp_files w)) w).

(** [console.log] of the line built from the exception. *)
Definition console_log (e : exn) (w : world) : world :=
  record (ConsoleLog e) w.

(** ** The validators *)

(** One entry of an error list: [{value, message}], [{message}] or
    [{values, message}]. *)
Inductive verror :=
| ValueError (value : jsval) (message : string)
| PlainError (message : string)
| ValuesError (values : list jsval) (message : string).

Definition message_of (e : verror) : string :=
  match e with
  | ValueError _ m | PlainError m | ValuesError _ m => m
  end.

(** [errors.push (e)]. *)
Definition push (errors : list verror) (e : verror) : list verror :=
  errors ++ [e].

(** The two functions of the [validator] package that are used. *)
Definition validator_isEmpty_ignore_whitespace (s : string) : bool :=
  (String.length (trim s) =? 0)%nat.

Definition validator_isIn (s : string) (options : list string) : bool :=
  bool_decide (s ∈ options).

Module validatorUtils.

Definition isString (x : jsval) : bool :=
  match x with
  | VStr _ => true
  | _ => false
  end.

Definition isNonEmptyString (x : jsval) : bool :=
  match x with
  | VStr s => negb (validator_isEmpty_ignore_whitespace s)
  | _ => false
  end.

Definition isObject (x : jsval) : bool :=
  match x with
  | VObj _ => true
  | _ => false
  end.

End validatorUtils.

Definition Array_isArray (x : jsval) : bool :=
  match x with
  | VArr _ => true
  | _ => false
  end.

Definition array_length (x : jsval) : nat :=
  match x with
  | VArr items => length items
  | _ => 0
  end.

(** The limit tests of the size check, on what [bytes.parse] answered:
    [!x], [isNaN (x)] and [x < 1]. *)
Definition limit_falsy (x : option number) : bool :=
  match x with
  | Some (Num z) => (z =? 0)%Z
  | _ => true
  end.

Definition limit_isNaN (x : option number) : bool :=
  match x with
  | Some NaN => true
  | _ => false
  end.

Definition limit_lt_1 (x : option number) : bool :=
  match x with
  | None => true
  | Some NaN => false
  | Some (Num z) => (z <? 1)%Z
  end.

(** [size <= x]. *)
Definition size_le_limit (size : Z) (x : option number) : bool :=
  match x with
  | None => (size <=? 0)%Z
  | Some NaN => false
  | Some (Num z) => (size <=? z)%Z
  end.

(** Each validator is used under [!] or [&&] only, so it is given by the
    truth value of what it returns.  ([validatorUtils.isInt] is used by
    none of them and is left out.) *)
Module models.

Module carbone.

Definition data (value : jsval) : bool :=
  truthy value
  && ((Array_isArray value && negb (array_length value =? 0)%nat)
      || validatorUtils.isObject value).

Definition options (value : jsval) : bool :=
  if truthy value then validatorUtils.isObject value else true.

Definition formatters (value : jsval) : bool :=
  if truthy value then validatorUtils.isNonEmptyString value else true.

Definition convertTo `{Externals} (value : jsval) : bool :=
  if truthy value then
    validatorUtils.isNonEmptyString value
    && match value with
       | VStr s =>
           (toLowerCase s =? "pdf")%string || table_in (toLowerCase s)
       | _ => false
       end
  else true.

Definition reportName (value : jsval) : bool :=
  if truthy value then validatorUtils.isNonEmptyString value else true.

End carbone.

Definition template (value : jsval) : bool :=
  truthy value
  && negb (match value with VUndefined | VNull => true | _ => false end)
  && validatorUtils.isObject value.

Module templateContent.

Definition mandatory (value : jsval) : bool :=
  validatorUtils.isNonEmptyString (member value "content")
  && validatorUtils.isNonEmptyString (member value "encodingType")
  && validatorUtils.isNonEmptyString (member value "fileType").

Definition content (value : jsval) : bool :=
  validatorUtils.isNonEmptyString value.

Definition encodingType (value : jsval) : bool :=
  if truthy value then
    validatorUtils.isNonEmptyString value
    && match value with
       | VStr s => validator_isIn s ["base64"; "binary"; "hex"]
       | _ => false
       end
  else true.

Definition fileType `{Externals} (value : jsval) : bool :=
  validatorUtils.isNonEmptyString value
  && match value with
     | VStr s => table_in (toLowerCase s)
     | _ => false
     end.

(** The [try] block: the value left in [tmpFile], and how the block
    ended. *)
Definition size_try `{Externals} (content encoding : jsval)
    (attachmentLimit : option number) (w : world)
  : option nat * result bool * world :=
  match tmp_fileSync w with
  | (Throw e, w) => (None, Throw e, w)
  | (Ok tmpFile, w) =>
      match writeFile tmpFile (Buffer_from content encoding) w with
      | (Throw e, w) => (Some tmpFile, Throw e, w)
      | (Ok _, w) =>
          match statSync_size tmpFile w with
          | (Throw e, w) => (Some tmpFile, Throw e, w)
          | (Ok stats_size, w) =>
              (Some tmpFile, Ok (size_le_limit stats_size attachmentLimit), w)
          end
      end
  end.

Definition size `{Externals} (content encoding limit : jsval) : io bool :=
  fun w =>
  if negb (templateContent.content content
           && templateContent.encodingType encoding)
  then (Ok false, w)
  else
    let attachmentLimit := bytes_parse limit in
    if limit_falsy attachmentLimit || limit_isNaN attachmentLimit
       || limit_lt_1 attachmentLimit
    then (Ok false, w)
    else
      let '(tmpFile, outcome, w) :=
        size_try content encoding attachmentLimit w in
      (* catch *)
      let '(outcome, w) :=
        match outcome with
        | Ok b => (Ok b, w)
        | Throw e => (Ok false, console_log e w)
        end in
      (* finally *)
      let w :=
        match tmpFile with
        | Some name => removeCallback name w
        | None => w
        end in
      (outcome, w).

Definition fileConversion `{Externals}
    (contentFileType outputFileType : jsval) : result bool :=
  rbind (loose_eq_empty contentFileType) (fun is_empty =>
    if is_empty then Ok false
    else if truthy contentFileType && truthy outputFileType then
      rbind (call_toLowerCase contentFileType) (fun k =>
        match table_get k with
        | Missing => Ok false
        | Targets outputs =>
            rbind (call_toLowerCase outputFileType) (fun out =>
              Ok (bool_decide (out ∈ outputs)))
        | Inherited => Throw TypeError
        end)
    else Ok true).

End templateContent.

End models.

(** Sequencing, with stdpp's notation [x ← m; k]. *)
#[global] Instance result_ret : MRet result := fun A a => Ok a.
#[global] Instance result_bind : MBind result := fun A B k r => rbind r k.

Definition io_return {A} (a : A) : io A := fun w => (Ok a, w).

#[global] Instance io_ret : MRet io := @io_return.
#[global] Instance io_bind : MBind io := fun A B k m w =>
  match m w with
  | (Ok a, w) => k a w
  | (Throw e, w) => (Throw e, w)
  end.

Definition io_lift {A} (r : result A) : io A := fun w => (r, w).

Module modelValidation.

Definition carbone `{Externals} (obj : object) : list verror :=
  let errors : list verror := [] in
  let errors :=
    if negb (models.carbone.data (prop obj "data"))
    then push errors (ValueError (prop obj "data") "Invalid value `data`.")
    else errors in
  let errors :=
    if negb (models.carbone.options (prop obj "options"))
    then push errors
           (ValueError (prop obj "options") "Invalid value `options`.")
    else if truthy (prop obj "options") then
      let errors :=
        if negb (models.carbone.convertTo
                   (member (prop obj "options") "convertTo"))
        then push errors
               (ValueError (member (prop obj "options") "convertTo")
                  "Invalid value `options.convertTo`.")
        else errors in
      let errors :=
        if negb (models.carbone.reportName
                   (member (prop obj "options") "reportName"))
        then push errors
               (ValueError (member (prop obj "options") "reportName")
                  "Invalid value `options.reportName`.")
        else errors in
      errors
    else errors in
  let errors :=
    if negb (models.carbone.formatters (prop obj "formatters"))
    then push errors
           (ValueError (prop obj "formatters") "Invalid value `formatters`.")
    else if truthy (prop obj "formatters") then
      if telejson_parse (prop obj "formatters") then errors
      else push errors
             (ValueError (prop obj "formatters")
                "Formatters could not be parsed into formatters object. See 'https://www.npmjs.com/package/telejson'.")
    else errors in
  errors.

(** The output type the conversion check is asked about. *)
Definition outputFileType (obj : object) : jsval :=
  if truthy (prop obj "options")
     && truthy (member (prop obj "options") "convertTo")
  then member (prop obj "options") "convertTo"
  else VStr "pdf".

Definition template `{Externals} (obj : object) (limit : jsval)
  : io (list verror) :=
  let errors := carbone obj in
  if (length errors =? 0)%nat then
    let errors :=
      if negb (models.template (prop obj "template"))
      then push errors
             (ValueError (prop obj "template") "Invalid value `template`.")
      else errors in
    if (length errors =? 0)%nat then
      if negb (models.templateContent.mandatory (prop obj "template"))
      then io_return (push errors
             (PlainError "Invalid template. Mandatory fields missing. Require content, encodingType and fileType."))
      else
        let validateSize := true in
        let '(errors, validateSize) :=
          if negb (models.templateContent.fileType
                     (member (prop obj "template") "fileType"))
          then (push errors
                  (ValueError (member (prop obj "template") "fileType")
                     "Invalid value `template.fileType`."), false)
          else (errors, validateSize) in
        let '(errors, validateSize) :=
          if negb (models.templateContent.content
                     (member (prop obj "template") "content"))
          then (push errors
                  (ValueError (member (prop obj "template") "content")
                     "Invalid value `template.content`."), false)
          else (errors, validateSize) in
        let '(errors, validateSize) :=
          if negb (models.templateContent.encodingType
                     (member (prop obj "template") "encodingType"))
          then (push errors
                  (ValueError (member (prop obj "template") "encodingType")
                     "Invalid value `template.encodingType`."), false)
          else (errors, validateSize) in
        errors ←
          (if validateSize then
             validSize ←
               models.templateContent.size
                 (member (prop obj "template") "content")
                 (member (prop obj "template") "encodingType")
                 limit;
             io_return
               (if negb validSize
                then push errors
                       (ValueError (VStr "Template document too large")
                          ("Template exceeds size limit of "
                           +:+ bytes_format limit +:+ "."))
                else errors)
           else io_return errors);
        validConversion ←
          io_lift (models.templateContent.fileConversion
                     (member (prop obj "template") "fileType")
                     (outputFileType obj));
        io_return
          (if negb validConversion
           then push errors
                  (ValuesError
                     [member (prop obj "template") "fileType";
                      outputFileType obj]
                     "Unsupported file type conversion. A dictionary of supported input and output file types can be found at API endpoint '/fileTypes'")
           else errors)
    else io_return errors
  else io_return errors.

End modelValidation.

(** ** The middleware adapter and the entry points *)

(** The problem document the adapter sends. *)
Record problem := Problem {
  status : Z;
  detail : string;
  errors : list verror;
}.

(** What one request has produced so far: the responses sent and the
    number of times control was handed to the next stage. *)
Record exchange := Exchange {
  sent : list problem;
  next_calls : nat;
}.

Definition send (p : problem) (x : exchange) : exchange :=
  Exchange (sent x ++ [p]) (next_calls x).

Definition next (x : exchange) : exchange :=
  Exchange (sent x) (S (next_calls x)).

(** [errors] is [None] when the argument is absent. *)
Definition handleValidationErrors (errors : option (list verror))
    (x : exchange) : exchange :=
  match errors with
  | Some (e :: l) => send (Problem 422 "Validation failed" (e :: l)) x
  | _ => next x
  end.

(** The module-level variable. *)
Record module_state := ModuleState {
  maxFileSize : jsval;
}.

(** What [bytes.parse] answered, as a value. *)
Definition parsed_value (x : option number) : jsval :=
  match x with
  | Some n => VNum n
  | None => VNull
  end.

Definition initial_state `{Externals} : module_state :=
  ModuleState (parsed_value (bytes_parse (VStr "25MB"))).

(** [process.env.FILE_UPLOADS_MAX_FILE_SIZE]. *)
Definition env_value (env : option string) : jsval :=
  match env with
  | Some s => VStr s
  | None => VUndefined
  end.

(** The value [init] resolves before parsing it. *)
Definition resolved_maxFileSize (options : jsval) (env : option string)
  : jsval :=
  js_or
    (js_or
       (js_and options
          (js_or (member options "maxFileSize")
                 (member options "max-file-size")))
       (env_value env))
    (VStr "25MB").

(** [try body catch (e) handler]. *)
Definition try_catch {A} (body : result A) (handler : exn -> result A)
  : result A :=
  match body with
  | Ok a => Ok a
  | Throw e => handler e
  end.

(** [init (options)]: the outcome and the module variable afterwards. *)
Definition init `{Externals} (options : jsval) (env : option string)
    (st : module_state) : result unit * module_state :=
  let st := ModuleState (resolved_maxFileSize options env) in
  match
    try_catch (Ok (parsed_value (bytes_parse (maxFileSize st))))
      (fun _ =>
         Throw (Error "Could not determine max file size (bytes) for file uploads."))
  with
  | Ok v => (Ok tt, ModuleState v)
  | Throw e => (Throw e, st)
  end.

Definition validateCarbone `{Externals} (body : object) (x : exchange)
  : exchange :=
  handleValidationErrors (Some (modelValidation.carbone body)) x.

Definition validateTemplate `{Externals} (st : module_state) (body : object)
    (x : exchange) : io exchange :=
  errors ← modelValidation.template body (maxFileSize st);
  io_return (handleValidationErrors (Some errors) x).

(** ** Worked instance of the collaborators

    A small stand-in for each collaborator, used where a statement is
    evaluated on a concrete request. *)

Definition sample_fileTypes : gmap string (list string) :=
  {[ "docx" := ["doc"; "docx"; "html"; "odt"; "pdf"; "rtf"; "txt"];
     "html" := ["html"; "odt"; "pdf"; "rtf"; "txt"];
     "odt" := ["doc"; "docx"; "html"; "odt"; "pdf"; "rtf"; "txt"];
     "txt" := ["doc"; "docx"; "html"; "odt"; "pdf"; "rtf"; "txt"];
     "xlsx" := ["csv"; "ods"; "pdf"; "xls"; "xlsx"] ]}.

(** Accepts text that opens a JSON object. *)
Definition sample_telejson_parse (v : jsval) : bool :=
  match v with
  | VStr (String "{" _) => true
  | _ => false
  end.

Fixpoint leading_digits (acc : option Z) (s : string) : option Z * string :=
  match s with
  | String c r =>
      let n := nat_of_ascii c in
      if ((48 <=? n) && (n <=? 57))%nat
      then leading_digits (Some (10 * default 0 acc + Z.of_nat (n - 48))%Z) r
      else (acc, s)
  | EmptyString => (acc, s)
  end.

Definition unit_factor (u : string) : option Z :=
  if (u =? "kb")%string then Some 1024%Z
  else if (u =? "mb")%string then Some (1024 ^ 2)%Z
  else if (u =? "gb")%string then Some (1024 ^ 3)%Z
  else if (u =? "tb")%string then Some (1024 ^ 4)%Z
  else if (u =? "pb")%string then Some (1024 ^ 5)%Z
  else None.

(** [bytes.parse] on numbers and on unsigned whole magnitudes with an
    optional unit; [null] when no number can be read. *)
Definition sample_bytes_parse (v : jsval) : option number :=
  match v with
  | VNum (Num z) => Some (Num z)
  | VStr s =>
      match leading_digits None s with
      | (Some n, rest) =>
          match unit_factor (toLowerCase (trim rest)) with
          | Some f => Some (Num (f * n))
          | None => Some (Num n)
          end
      | (None, _) => None
      end
  | _ => None
  end.

Definition sample_bytes_format (v : jsval) : string :=
  match v with
  | VNum (Num z) => pretty z +:+ "B"
  | _ => "null"
  end.

(** One byte per code unit, as the binary encoding decodes. *)
Definition sample_Buffer_from (content encoding : jsval) : list byte :=
  match content with
  | VStr s => byte_of_ascii <$> list_ascii_of_string s
  | _ => []
  end.

Definition sample_externals : Externals := {|
  fileTypes := sample_fileTypes;
  telejson_parse := sample_telejson_parse;
  bytes_parse := sample_bytes_parse;
  bytes_format := sample_bytes_format;
  Buffer_from := sample_Buffer_from;
|}.

Definition empty_world : world := World ∅ [] [].

Definition fresh_exchange : exchange := Exchange [] 0.

(** The request of the end-to-end scenario. *)
Definition scenario_body : object :=
  {[ "data" := VObj {[ "a" := VNum (Num 1) ]};
     "template" :=
       VObj {[ "content" := VStr "";
               "encodingType" := VStr "base64";
               "fileType" := VStr "docx" ]} ]}.

(** A template upload with the given content, encoding and file type. *)
Definition upload_body (content encodingType fileType : string) : object :=
  {[ "data" := VObj {[ "a" := VNum (Num 1) ]};
     "template" :=
       VObj {[ "content" := VStr content;
               "encodingType" := VStr encodingType;
               "fileType" := VStr fileType ]} ]}.

(** ** Classifying the entries of the base validator *)

Inductive field :=
| Fdata
| Foptions
| FconvertTo
| FreportName
| Fformatters.

#[global] Instance field_eq_dec : EqDecision field.
Proof. solve_decision. Defined.

(** The field an entry is about, read off its message. *)
Definition field_of_message (m : string) : option field :=
  if (m =? "Invalid value `data`.")%string then Some Fdata
  else if (m =? "Invalid value `options`.")%string then Some Foptions
  else if (m =? "Invalid value `options.convertTo`.")%string then Some FconvertTo
  else if (m =? "Invalid value `options.reportName`.")%string then Some FreportName
  else if (m =? "Invalid value `formatters`.")%string then Some Fformatters
  else if (m =? "Formatters could not be parsed into formatters object. See 'https://www.npmjs.com/package/telejson'.")%string
  then Some Fformatters
  else None.

Definition entries_for (f : field) (l : list verror) : nat :=
  length (filter (λ e, field_of_message (message_of e) = Some f) l).

(** ** Notions the statements use *)

(** [bytes.parse] answered a byte count of at least one. *)
Definition positive_byte_count (x : option number) : bool :=
  match x with
  | Some (Num z) => (1 <=? z)%Z
  | _ => false
  end.

(** None of the next [n] fallible operations is planned to fail. *)
Definition no_fault_ahead (n : nat) (w : world) : Prop :=
  Forall (λ bad, bad = false) (take n (faults w)).

(** *** The entries of the template validator

    The entry each step of the template validator records when it
    fails. *)

Definition template_entry (tpl : jsval) : verror :=
  ValueError tpl "Invalid value `template`.".

Definition mandatory_entry : verror :=
  PlainError "Invalid template. Mandatory fields missing. Require content, encodingType and fileType.".

Definition fileType_failure `{Externals} (tpl : jsval) : list verror :=
  if models.templateContent.fileType (member tpl "fileType") then []
  else [ValueError (member tpl "fileType") "Invalid value `template.fileType`."].

Definition content_failure (tpl : jsval) : list verror :=
  if models.templateContent.content (member tpl "content") then []
  else [ValueError (member tpl "content") "Invalid value `template.content`."].

Definition encodingType_failure (tpl : jsval) : list verror :=
  if models.templateContent.encodingType (member tpl "encodingType") then []
  else [ValueError (member tpl "encodingType")
          "Invalid value `template.encodingType`."].

Definition size_entry `{Externals} (limit : jsval) : verror :=
  ValueError (VStr "Template document too large")
    ("Template exceeds size limit of " +:+ bytes_format limit +:+ ".").

Definition conversion_entry (tpl output : jsval) : verror :=
  ValuesError [member tpl "fileType"; output]
    "Unsupported file type conversion. A dictionary of supported input and output file types can be found at API endpoint '/fileTypes'".

(** *** Notions for the conversion and convertTo checks *)

(** A file-type argument: a string, or absent. *)
Definition type_arg (a : option string) : jsval :=
  match a with
  | Some s => VStr s
  | None => VUndefined
  end.

(** What the specification expects of the conversion check: false on an
    empty input type; when both types are there, whether the table lists
    the lower-cased output type for the lower-cased input type; true when
    one of them is absent or the output type is empty. *)
Definition fileConversion_expected `{Externals} (input output : option string)
  : bool :=
  match input, output with
  | Some s, Some o =>
      if bool_decide (s = "") then false
      else if bool_decide (o = "") then true
      else match fileTypes !! toLowerCase s with
           | Some outputs => bool_decide (toLowerCase o ∈ outputs)
           | None => false
           end
  | Some s, None => negb (bool_decide (s = ""))
  | None, _ => true
  end.

(** The entry the base validator records for [options.convertTo]. *)
Definition convertTo_entry (v : jsval) : verror :=
  ValueError v "Invalid value `options.convertTo`.".

(** [v] is, in some letter case, "pdf" or a key of the table. *)
Definition names_output_type `{Externals} (v : jsval) : Prop :=
  ∃ s, v = VStr s
       ∧ (toLowerCase s = "pdf" ∨ is_Some (fileTypes !! toLowerCase s)).

(** [v] is, in some letter case, a name every object inherits. *)
Definition names_inherited (v : jsval) : Prop :=
  ∃ s, v = VStr s ∧ toLowerCase s ∈ object_prototype_names.

(** [v] is a string of white space only. *)
Definition blank (v : jsval) : Prop :=
  ∃ s, v = VStr s ∧ validator_isEmpty_ignore_whitespace s = true.

(** A body whose [options] object carries [convertTo]. *)
Definition convertTo_body (v : jsval) : object :=
  {[ "data" := VObj {[ "a" := VNum (Num 1) ]};
     "options" := VObj {[ "convertTo" := v ]} ]}.

(** *** The template validator's algorithm

    The steps of the specification, with the conversion step as it words
    it: the conversion entry is added exactly when the table does not
    list the output type for the file type ([fileConversion_expected]);
    nothing is thrown. *)

(** The string a value is, if it is one. *)
Definition as_type (v : jsval) : option string :=
  match v with
  | VStr s => Some s
  | _ => None
  end.

Definition template_algorithm `{Externals} (obj : object) (limit : jsval)
  : io (list verror) := fun w =>
  let tpl := prop obj "template" in
  match modelValidation.carbone obj with
  | e :: l => (Ok (e :: l), w)
  | [] =>
      if negb (models.template tpl) then (Ok [template_entry tpl], w)
      else if negb (models.templateContent.mandatory tpl)
      then (Ok [mandatory_entry], w)
      else
        let failures :=
          (fileType_failure tpl ++ content_failure tpl
           ++ encodingType_failure tpl)%list in
        let '(size_part, w) :=
          match failures with
          | [] =>
              let '(verdict, w) :=
                models.templateContent.size (member tpl "content")
                  (member tpl "encodingType") limit w in
              (match verdict with
               | Ok true => []
               | _ => [size_entry limit]
               end, w)
          | _ :: _ => ([], w)
          end in
        let compatible :=
          fileConversion_expected (as_type (member tpl "fileType"))
            (as_type (modelValidation.outputFileType obj)) in
        (Ok (failures ++ size_part
             ++ (if compatible then []
                 else [conversion_entry tpl
                         (modelValidation.outputFileType obj)]))%list,
         w)
  end.

(** *** Notions for the further properties *)

(** Every code unit of [s] is white space. *)
Definition all_whitespace (s : string) : bool :=
  forallb is_whitespace (list_ascii_of_string s).

(** None of the first [n] outcomes of the plan is a failure. *)
Definition fault_free (n : nat) (plan : list bool) : bool :=
  forallb negb (take n plan).

(** *** The base validator's list, part by part *)

Definition data_part (obj : object) : list verror :=
  if models.carbone.data (prop obj "data") then []
  else [ValueError (prop obj "data") "Invalid value `data`."].

Definition convertTo_part `{Externals} (options : jsval) : list verror :=
  if models.carbone.convertTo (member options "convertTo") then []
  else [ValueError (member options "convertTo")
          "Invalid value `options.convertTo`."].

Definition reportName_part (options : jsval) : list verror :=
  if models.carbone.reportName (member options "reportName") then []
  else [ValueError (member options "reportName")
          "Invalid value `options.reportName`."].

Definition options_part `{Externals} (obj : object) : list verror :=
  if models.carbone.options (prop obj "options") then
    if truthy (prop obj "options")
    then (convertTo_part (prop obj "options")
          ++ reportName_part (prop obj "options"))%list
    else []
  else [ValueError (prop obj "options") "Invalid value `options`."].

Definition formatters_part `{Externals} (obj : object) : list verror :=
  if models.carbone.formatters (prop obj "formatters") then
    if truthy (prop obj "formatters")
       && negb (telejson_parse (prop obj "formatters"))
    then [ValueError (prop obj "formatters")
            "Formatters could not be parsed into formatters object. See 'https://www.npmjs.com/package/telejson'."]
    else []
  else [ValueError (prop obj "formatters") "Invalid value `formatters`."].

(** *** The phases of the template validator once the mandatory fields
    are there *)

(** What the size phase adds and the world it leaves: the size check is
    run when neither fileType nor encodingType failed. *)
Definition size_phase `{Externals} (obj : object) (limit : jsval) (w : world)
  : list verror * world :=
  let tpl := prop obj "template" in
  match (fileType_failure tpl ++ encodingType_failure tpl)%list with
  | [] =>
      let '(verdict, w') :=
        models.templateContent.size (member tpl "content")
          (member tpl "encodingType") limit w in
      (match verdict with
       | Ok true => []
       | _ => [size_entry limit]
       end, w')
  | _ :: _ => ([], w)
  end.

(** What the conversion phase adds, or the exception it ends with. *)
Definition conversion_phase `{Externals} (obj : object)
  : result (list verror) :=
  let tpl := prop obj "template" in
  match
    models.templateContent.fileConversion (member tpl "fileType")
      (modelValidation.outputFileType obj)
  with
  | Ok true => Ok []
  | Ok false => Ok [conversion_entry tpl (modelValidation.outputFileType obj)]
  | Throw e => Throw e
  end.

(** ** Properties *)

(** *** Worked requests *)

Example sample_parse_default :
  sample_bytes_parse (VStr "25MB") = Some (Num 26214400).
Proof. reflexivity. Qed.

Example sample_parse_text : sample_bytes_parse (VStr "abc") = None.
Proof. reflexivity. Qed.

Example upload_accepted :
  @modelValidation.template sample_externals
    (upload_body "hello" "binary" "docx") (VNum (Num 10)) empty_world
  = (Ok [],
     World ∅ []
       [TmpCreate 0; WriteFile 0 5; StatFile 0; TmpRemove 0]).
Proof. vm_compute. reflexivity. Qed.

Example upload_too_large :
  fst (@modelValidation.template sample_externals
         (upload_body "hello" "binary" "docx") (VNum (Num 4)) empty_world)
  = Ok [ValueError (VStr "Template document too large")
          "Template exceeds size limit of 4B."].
Proof. vm_compute. reflexivity. Qed.

Example upload_write_fails :
  @modelValidation.template sample_externals
    (upload_body "hello" "binary" "docx") (VNum (Num 10))
    (World ∅ [false; true] [])
  = (Ok [ValueError (VStr "Template document too large")
           "Template exceeds size limit of 10B."],
     World ∅ []
       [TmpCreate 0; Failed; ConsoleLog IOError; TmpRemove 0]).
Proof. vm_compute. reflexivity. Qed.

Example scenario_answered_422 :
  @validateTemplate sample_externals (@initial_state sample_externals)
    scenario_body fresh_exchange empty_world
  = (Ok (Exchange
           [Problem 422 "Validation failed"
              [PlainError "Invalid template. Mandatory fields missing. Require content, encodingType and fileType."]]
           0),
     empty_world).
Proof. vm_compute. reflexivity. Qed.

Example upload_inherited_name :
  fst (@modelValidation.template sample_externals
         (upload_body "hello" "binary" "constructor") (VNum (Num 10))
         empty_world)
  = Throw TypeError.
Proof. vm_compute. reflexivity. Qed.

(** *** The middleware adapter *)

(** C7: an absent or empty error list hands control to the next stage
    and sends nothing; a non-empty list sends exactly one problem, with
    status 422, the detail "Validation failed" and the whole list, and
    does not hand control on. *)
Theorem handleValidationErrors_outcome (x : exchange) :
  handleValidationErrors None x = Exchange (sent x) (S (next_calls x))
  ∧ handleValidationErrors (Some []) x = Exchange (sent x) (S (next_calls x))
  ∧ ∀ e l,
      handleValidationErrors (Some (e :: l)) x
      = Exchange (sent x ++ [Problem 422 "Validation failed" (e :: l)])
          (next_calls x).
Proof. repeat split. Qed.

(** *** The size check *)

Section SizeCheck.

Context `{Externals}.

Lemma next_fault_files (w : world) :
  tmp_files (snd (next_fault w)) = tmp_files w.
Proof. unfold next_fault. by destruct (faults w). Qed.

Lemma fresh_name_unused (m : gmap nat (list byte)) :
  m !! fresh (dom m) = None.
Proof. apply not_elem_of_dom, is_fresh. Qed.

(** Whatever the [try] block did, removing the file it left in
    [tmpFile] restores the set of temporary files. *)
Lemma size_try_files (content encoding : jsval) (lim : option number)
    (w : world) :
  match models.templateContent.size_try content encoding lim w with
  | (Some name, _, w') => delete name (tmp_files w') = tmp_files w
  | (None, _, w') => tmp_files w' = tmp_files w
  end.
Proof.
  unfold models.templateContent.size_try, tmp_fileSync, writeFile,
    statSync_size.
  pose proof (next_fault_files w) as Hw.
  destruct (next_fault w) as [bad1 w1]; simpl in Hw.
  destruct bad1; simpl; [done|].
  rewrite Hw.
  set (name := fresh (dom (tmp_files w))).
  pose proof (fresh_name_unused (tmp_files w)) as Hfresh. fold name in Hfresh.
  set (w2 := record _ _).
  pose proof (next_fault_files w2) as Hw2.
  destruct (next_fault w2) as [bad2 w3]; simpl in Hw2.
  destruct bad2; simpl.
  { rewrite Hw2. subst w2. simpl. by apply delete_insert_id. }
  set (w4 := record _ _).
  pose proof (next_fault_files w4) as Hw4.
  destruct (next_fault w4) as [bad3 w5]; simpl in Hw4.
  assert (delete name (tmp_files w5) = tmp_files w) as Hdel.
  { rewrite Hw4. subst w4. simpl. rewrite Hw2. subst w2. simpl.
    rewrite insert_insert_eq. by apply delete_insert_id. }
  destruct bad3; simpl; [done|].
  destruct (tmp_files w5 !! name); simpl; done.
Qed.

(** C8: whichever way the size check ends (a verdict, or a failure of
    creating, writing or measuring the file), the temporary files after
    the call are those before it. *)
Theorem size_releases_tmp_file (content encoding limit : jsval) (w : world) :
  tmp_files (snd (models.templateContent.size content encoding limit w))
  = tmp_files w.
Proof.
  unfold models.templateContent.size.
  destruct (negb _); [done|].
  destruct (_ || _); [done|].
  pose proof (size_try_files content encoding (bytes_parse limit) w) as Htry.
  destruct (models.templateContent.size_try _ _ _ w) as [[tmpFile outcome] w'].
  destruct tmpFile as [name|], outcome as [b|e]; simpl; done.
Qed.

Lemma limit_tests_positive (x : option number) :
  limit_falsy x || limit_isNaN x || limit_lt_1 x = negb (positive_byte_count x).
Proof.
  destruct x as [[|z]|]; simpl; try done.
  destruct (Z.eqb_spec z 0) as [->|]; [done|]. simpl.
  destruct (Z.ltb_spec z 1), (Z.leb_spec 1 z); simpl; lia.
Qed.

(** The size check never throws. *)
Lemma size_returns (content encoding limit : jsval) (w : world) :
  ∃ b, fst (models.templateContent.size content encoding limit w) = Ok b.
Proof.
  unfold models.templateContent.size.
  destruct (negb _); [by eexists|].
  destruct (_ || _); [by eexists|].
  destruct (models.templateContent.size_try _ _ _ w) as [[tmpFile outcome] w'].
  destruct outcome, tmpFile; by eexists.
Qed.

Lemma next_fault_ok (w : world) (n : nat) :
  no_fault_ahead (S n) w →
  next_fault w = (false, World (tmp_files w) (drop 1 (faults w)) (io_log w))
  ∧ no_fault_ahead n (World (tmp_files w) (drop 1 (faults w)) (io_log w)).
Proof.
  unfold no_fault_ahead, next_fault. destruct w as [files plan log]; simpl.
  destruct plan as [|bad rest]; simpl.
  - intros _. split; [done|]. by rewrite take_nil.
  - intros [-> Hrest]%Forall_cons. by rewrite drop_0.
Qed.

(** With no failure planned, the [try] block creates the file, writes
    the decoded bytes, measures them and compares. *)
Lemma size_try_ok (content encoding : jsval) (lim : option number) (w : world) :
  no_fault_ahead 3 w →
  let name := fresh (dom (tmp_files w)) in
  let data := Buffer_from content encoding in
  models.templateContent.size_try content encoding lim w
  = (Some name, Ok (size_le_limit (Z.of_nat (length data)) lim),
     World (<[name := data]> (tmp_files w)) (drop 3 (faults w))
       (io_log w ++ [TmpCreate name; WriteFile name (length data);
                     StatFile name])).
Proof.
  intros Hplan name data.
  unfold models.templateContent.size_try, tmp_fileSync, writeFile,
    statSync_size.
  destruct (next_fault_ok w 2 Hplan) as [-> Hplan1]. simpl.
  fold name.
  match goal with |- context [next_fault ?w1] =>
    destruct (next_fault_ok w1 1) as [-> Hplan2] end.
  { exact Hplan1. }
  simpl. fold data.
  match goal with |- context [next_fault ?w2] =>
    destruct (next_fault_ok w2 0) as [-> _] end.
  { exact Hplan2. }
  simpl. rewrite lookup_insert_eq. simpl.
  unfold record; simpl.
  rewrite insert_insert_eq, !drop_drop, <- !app_assoc. reflexivity.
Qed.

(** What the size check does by the verdicts of its two validators and
    of the limit tests. *)
Lemma size_preconditions (content encoding limit : jsval) (w : world) :
  (models.templateContent.content content = false
   ∨ models.templateContent.encodingType encoding = false
   ∨ positive_byte_count (bytes_parse limit) = false →
   models.templateContent.size content encoding limit w = (Ok false, w))
  ∧ (models.templateContent.content content = true →
     models.templateContent.encodingType encoding = true →
     ∀ z, bytes_parse limit = Some (Num z) → (1 ≤ z)%Z →
     no_fault_ahead 3 w →
     let name := fresh (dom (tmp_files w)) in
     let data := Buffer_from content encoding in
     models.templateContent.size content encoding limit w
     = (Ok (Z.of_nat (length data) <=? z)%Z,
        World (tmp_files w) (drop 3 (faults w))
          (io_log w ++ [TmpCreate name; WriteFile name (length data);
                        StatFile name; TmpRemove name]))).
Proof.
  split.
  - intros Hpre. unfold models.templateContent.size.
    destruct (models.templateContent.content content); simpl.
    2: { done. }
    destruct (models.templateContent.encodingType encoding); simpl.
    2: { done. }
    rewrite limit_tests_positive.
    destruct Hpre as [Hc | [He | ->]]; done.
  - intros Hc He z Hz Hpos Hplan name data.
    unfold models.templateContent.size.
    rewrite Hc, He, limit_tests_positive, Hz. simpl.
    destruct (Z.leb_spec 1 z) as [_|]; [|lia]. simpl.
    rewrite <- Hz, size_try_ok by done. fold name data. simpl.
    rewrite Hz. simpl. unfold removeCallback, record; simpl.
    rewrite delete_insert_id by apply fresh_name_unused.
    rewrite <- app_assoc. reflexivity.
Qed.

(** The encoding validator accepts the falsy values and the three
    names. *)
Lemma encodingType_accepts_iff (v : jsval) :
  models.templateContent.encodingType v = true
  ↔ truthy v = false ∨ v ∈ [VStr "base64"; VStr "binary"; VStr "hex"].
Proof.
  unfold models.templateContent.encodingType.
  rewrite !elem_of_cons, elem_of_nil.
  destruct (truthy v) eqn:Hv.
  2: { split; auto. }
  split.
  - destruct v as [| | | |s| |]; try discriminate.
    rewrite andb_true_iff. intros [_ Hin].
    apply bool_decide_eq_true in Hin.
    rewrite !elem_of_cons, elem_of_nil in Hin.
    destruct Hin as [-> | [-> | [-> | []]]]; auto.
  - intros [? | [-> | [-> | [-> | []]]]]; [discriminate|reflexivity..].
Qed.

(** C3, amended: when the content is not a non-empty string, or the
    encoding is a truthy value other than the strings base64, binary and
    hex, or the limit does not parse to a positive byte count, the size
    check answers false and nothing happens in the world; when the
    content is a non-empty string, the encoding is falsy or one of the
    three strings, the limit parses to a positive byte count and no file
    operation fails, it creates the temporary file, writes the decoded
    bytes, measures them, removes the file and answers whether their
    number is at most the limit. *)
Theorem size_preconditions_amended (content encoding limit : jsval)
    (w : world) :
  (models.templateContent.content content = false
   ∨ (truthy encoding = true
      ∧ encoding ∉ [VStr "base64"; VStr "binary"; VStr "hex"])
   ∨ positive_byte_count (bytes_parse limit) = false →
   models.templateContent.size content encoding limit w = (Ok false, w))
  ∧ (models.templateContent.content content = true →
     truthy encoding = false
     ∨ encoding ∈ [VStr "base64"; VStr "binary"; VStr "hex"] →
     ∀ z, bytes_parse limit = Some (Num z) → (1 ≤ z)%Z →
     no_fault_ahead 3 w →
     models.templateContent.size content encoding limit w
     = (Ok (Z.of_nat (length (Buffer_from content encoding)) <=? z)%Z,
        World (tmp_files w) (drop 3 (faults w))
          (io_log w
           ++ [TmpCreate (fresh (dom (tmp_files w)));
               WriteFile (fresh (dom (tmp_files w)))
                 (length (Buffer_from content encoding));
               StatFile (fresh (dom (tmp_files w)));
               TmpRemove (fresh (dom (tmp_files w)))]))).
Proof.
  destruct (size_preconditions content encoding limit w) as [Hfail Hrun].
  split.
  - intros [Hc | [[Hv Hout] | Hlimit]]; apply Hfail; auto.
    right. left. apply not_true_iff_false.
    intros [Hfalsy | Hin]%encodingType_accepts_iff; [congruence|done].
  - intros Hc He z Hz Hpos Hplan.
    apply (Hrun Hc (proj2 (encodingType_accepts_iff encoding) He) z Hz Hpos
             Hplan).
Qed.

End SizeCheck.

(** C3 as worded fails on the code: an absent encoding is none of
    base64, binary and hex, yet the size check goes on to create, write
    and measure the temporary file, and answers true. *)
Lemma size_absent_encoding_does_io :
  (VUndefined ∉ [VStr "base64"; VStr "binary"; VStr "hex"])
  ∧ @models.templateContent.size sample_externals
      (VStr "hello") VUndefined (VStr "1KB") empty_world
    = (Ok true,
       World ∅ []
         [TmpCreate 0; WriteFile 0 5; StatFile 0; TmpRemove 0]).
Proof.
  split; [|vm_compute; reflexivity].
  rewrite !elem_of_cons, elem_of_nil. intros [? | [? | [? | []]]]; discriminate.
Qed.

Lemma size_preconditions_amended_witness :
  @models.templateContent.size sample_externals
    (VStr "hello") (VStr "utf8") (VStr "1KB") empty_world
  = (Ok false, empty_world)
  ∧ @models.templateContent.size sample_externals
      (VStr "hello") (VStr "binary") (VStr "1KB") empty_world
    = (Ok true,
       World ∅ []
         [TmpCreate 0; WriteFile 0 5; StatFile 0; TmpRemove 0]).
Proof.
  split.
  - apply (proj1 (@size_preconditions_amended sample_externals
                    (VStr "hello") (VStr "utf8") (VStr "1KB") empty_world)).
    right. left. split; [reflexivity|].
    rewrite !elem_of_cons, elem_of_nil.
    intros [? | [? | [? | []]]]; discriminate.
  - assert (VStr "binary" ∈ [VStr "base64"; VStr "binary"; VStr "hex"])
      as Hin by (rewrite !elem_of_cons; auto).
    apply (proj2 (@size_preconditions_amended sample_externals
                    (VStr "hello") (VStr "binary") (VStr "1KB") empty_world)
             eq_refl (or_intror Hin) 1024%Z eq_refl).
    + lia.
    + apply Forall_nil_2.
Defined.

(** *** The encoding validator *)

(** C9: the encoding validator answers true on every falsy value
    ([undefined], [null] and the empty string among them), and on a
    truthy value answers true exactly for the strings base64, binary
    and hex; a template whose encodingType is falsy is turned away by
    the mandatory-fields check instead. *)
Theorem encodingType_vacuous_when_absent :
  models.templateContent.encodingType VUndefined = true
  ∧ models.templateContent.encodingType VNull = true
  ∧ models.templateContent.encodingType (VStr "") = true
  ∧ (∀ v, truthy v = false → models.templateContent.encodingType v = true)
  ∧ (∀ v, truthy v = true →
       (models.templateContent.encodingType v = true
        ↔ v = VStr "base64" ∨ v = VStr "binary" ∨ v = VStr "hex"))
  ∧ (∀ t, truthy (member t "encodingType") = false →
       models.templateContent.mandatory t = false).
Proof.
  split; [done|]. split; [done|]. split; [done|].
  split; [|split].
  - intros v Hv. unfold models.templateContent.encodingType. by rewrite Hv.
  - intros v Hv. unfold models.templateContent.encodingType. rewrite Hv.
    split.
    + destruct v as [| | | |s| |]; try done.
      rewrite andb_true_iff. intros [_ Hin].
      apply bool_decide_eq_true in Hin.
      rewrite !elem_of_cons, elem_of_nil in Hin.
      destruct Hin as [-> | [-> | [-> | []]]]; auto.
    + intros [-> | [-> | ->]]; reflexivity.
  - intros t Ht. unfold models.templateContent.mandatory.
    destruct (member t "encodingType") as [| | | |s| |]; simpl in *;
      rewrite ?andb_false_r; try done.
    destruct s; [|done]. by rewrite andb_false_r.
Qed.

(** *** The base validator *)

Section BaseValidator.

Context `{Externals}.

(** C10: in the list the base validator returns, each of the fields
    data, options, options.convertTo, options.reportName and formatters
    has at most one entry, there are at most four entries in all, and
    every entry is about one of these fields and carries a message that
    is not empty. *)
Theorem carbone_entries_bounded (obj : object) :
  (∀ f, (entries_for f (modelValidation.carbone obj) ≤ 1)%nat)
  ∧ (length (modelValidation.carbone obj) ≤ 4)%nat
  ∧ Forall (λ e, message_of e ≠ ""
                 ∧ is_Some (field_of_message (message_of e)))
      (modelValidation.carbone obj).
Proof.
  unfold modelValidation.carbone, push.
  repeat case_match; simpl;
    (split; [intros []; vm_compute; lia|]);
    (split; [lia|]);
    repeat (apply Forall_cons; split; [split; [done|by eexists]|]);
    apply Forall_nil_2.
Qed.

(** What the convertTo validator answers. *)
Lemma convertTo_falsy (v : jsval) :
  truthy v = false → models.carbone.convertTo v = true.
Proof. intros Hv. unfold models.carbone.convertTo. by rewrite Hv. Qed.

Lemma convertTo_accepts (v : jsval) :
  names_output_type v → ¬ blank v → models.carbone.convertTo v = true.
Proof.
  intros (s & -> & Hname) Hblank. unfold models.carbone.convertTo.
  destruct (truthy (VStr s)); [|done]. simpl.
  destruct (validator_isEmpty_ignore_whitespace s) eqn:Hempty.
  { destruct Hblank. by exists s. }
  simpl. destruct Hname as [-> | [outputs Hkey]]; [done|].
  apply orb_true_iff. right. unfold table_in, table_get. by rewrite Hkey.
Qed.

Lemma convertTo_rejects (v : jsval) :
  truthy v = true → ¬ names_output_type v → ¬ names_inherited v →
  models.carbone.convertTo v = false.
Proof.
  intros Hv Hname Hproto. unfold models.carbone.convertTo. rewrite Hv.
  destruct v as [| | | |s| |]; try done.
  simpl. destruct (validator_isEmpty_ignore_whitespace s); [done|]. simpl.
  apply orb_false_iff. split.
  - apply String.eqb_neq. intros Hpdf. apply Hname. exists s. auto.
  - unfold table_in, table_get.
    destruct (fileTypes !! toLowerCase s) as [outputs|] eqn:Hkey.
    { destruct Hname. exists s. split; [done|]. right. by exists outputs. }
    case_bool_decide as Hin; [|done].
    destruct Hproto. by exists s.
Qed.

(** C6, amended: for a body whose [options] is an object, a truthy
    [convertTo] that is neither "pdf" nor a key of the table in any
    letter case (and does not name what every object inherits) gets its
    entry in the list; a non-blank string that is "pdf" or a key in some
    letter case gets none; a falsy [convertTo] (absent, [null], empty,
    zero, false) gets none. *)
Theorem convertTo_violation_amended (obj o : object) :
  prop obj "options" = VObj o →
  (truthy (prop o "convertTo") = true →
   ¬ names_output_type (prop o "convertTo") →
   ¬ names_inherited (prop o "convertTo") →
   convertTo_entry (prop o "convertTo") ∈ modelValidation.carbone obj)
  ∧ (names_output_type (prop o "convertTo") →
     ¬ blank (prop o "convertTo") →
     entries_for FconvertTo (modelValidation.carbone obj) = 0)
  ∧ (truthy (prop o "convertTo") = false →
     entries_for FconvertTo (modelValidation.carbone obj) = 0).
Proof.
  intros Hoptions.
  assert (∀ b, models.carbone.convertTo (prop o "convertTo") = b →
            modelValidation.carbone obj
            = (let errors : list verror := [] in
               let errors :=
                 if negb (models.carbone.data (prop obj "data"))
                 then push errors
                        (ValueError (prop obj "data") "Invalid value `data`.")
                 else errors in
               let errors :=
                 if negb b
                 then push errors (convertTo_entry (prop o "convertTo"))
                 else errors in
               let errors :=
                 if negb (models.carbone.reportName (prop o "reportName"))
                 then push errors
                        (ValueError (prop o "reportName")
                           "Invalid value `options.reportName`.")
                 else errors in
               let errors :=
                 if negb (models.carbone.formatters (prop obj "formatters"))
                 then push errors
                        (ValueError (prop obj "formatters")
                           "Invalid value `formatters`.")
                 else if truthy (prop obj "formatters") then
                   if telejson_parse (prop obj "formatters") then errors
                   else push errors
                          (ValueError (prop obj "formatters")
                             "Formatters could not be parsed into formatters object. See 'https://www.npmjs.com/package/telejson'.")
                 else errors in
               errors)) as Hshape.
  { intros b <-. unfold modelValidation.carbone. rewrite Hoptions. reflexivity. }
  split; [|split].
  - intros Hv Hname Hproto.
    rewrite (Hshape false) by by apply convertTo_rejects.
    unfold push. simpl. repeat case_match; simpl; set_solver.
  - intros Hname Hblank.
    rewrite (Hshape true) by by apply convertTo_accepts.
    unfold push. simpl. repeat case_match; reflexivity.
  - intros Hv.
    rewrite (Hshape true) by by apply convertTo_falsy.
    unfold push. simpl. repeat case_match; reflexivity.
Qed.

End BaseValidator.

(** C6 as worded fails on the code: an empty [convertTo], and likewise
    the number zero, is present in the [options] object and is neither
    "pdf" nor a key of the table, yet the base validator records
    nothing. *)
Lemma convertTo_present_but_falsy_not_reported :
  (convertTo_body (VStr "") !! "options"
   = Some (VObj {[ "convertTo" := VStr "" ]})
   ∧ ¬ @names_output_type sample_externals (VStr "")
   ∧ @modelValidation.carbone sample_externals (convertTo_body (VStr "")) = [])
  ∧ (convertTo_body (VNum (Num 0)) !! "options"
     = Some (VObj {[ "convertTo" := VNum (Num 0) ]})
     ∧ ¬ @names_output_type sample_externals (VNum (Num 0))
     ∧ @modelValidation.carbone sample_externals
         (convertTo_body (VNum (Num 0))) = []).
Proof.
  split; (split; [reflexivity|split; [|reflexivity]]).
  - intros (s & [= <-] & [Hpdf | [outputs Hkey]]); discriminate.
  - intros (s & Hs & _). discriminate.
Qed.

Lemma convertTo_violation_amended_witness :
  convertTo_entry (VStr "exe")
    ∈ @modelValidation.carbone sample_externals (convertTo_body (VStr "exe"))
  ∧ entries_for FconvertTo
      (@modelValidation.carbone sample_externals (convertTo_body (VStr "DocX")))
    = 0.
Proof.
  split.
  - apply (proj1 (@convertTo_violation_amended sample_externals
                    (convertTo_body (VStr "exe"))
                    {[ "convertTo" := VStr "exe" ]} eq_refl)).
    + reflexivity.
    + intros (s & [= <-] & [Hpdf | [outputs Hkey]]); discriminate.
    + intros (s & [= <-] & Hin).
      apply (bool_decide_eq_true_2 _) in Hin. discriminate.
  - apply (proj1 (proj2 (@convertTo_violation_amended sample_externals
                           (convertTo_body (VStr "DocX"))
                           {[ "convertTo" := VStr "DocX" ]} eq_refl))).
    + exists "DocX". split; [reflexivity|]. right. by eexists.
    + intros (s & [= <-] & Hempty). discriminate.
Defined.

(** *** The template validator *)

Section TemplateValidator.

Context `{Externals}.

(** C2: for the body [{data: {a: 1}, template: {content: "",
    encodingType: "base64", fileType: "docx"}}] the template validator
    returns exactly one entry, the one the mandatory-fields check records
    because [content] is empty; the size check is not run (nothing
    happens in the world), so no size-limit entry appears. *)
Theorem scenario_empty_content (limit : jsval) (w : world) :
  modelValidation.template scenario_body limit w
  = (Ok [PlainError "Invalid template. Mandatory fields missing. Require content, encodingType and fileType."],
     w).
Proof. reflexivity. Qed.

End TemplateValidator.

(** *** Initialisation *)

Section Init.

Context `{Externals}.

(** X2: the value [init] parses is the option under its first spelling,
    else under its second, else the environment's, else "25MB". *)
Lemma resolved_maxFileSize_precedence (options : jsval) (env : option string) :
  resolved_maxFileSize options env
  = if truthy options && truthy (member options "maxFileSize")
    then member options "maxFileSize"
    else if truthy options && truthy (member options "max-file-size")
    then member options "max-file-size"
    else if truthy (env_value env) then env_value env
    else VStr "25MB".
Proof.
  unfold resolved_maxFileSize, js_or, js_and.
  destruct (truthy options) eqn:Ho,
    (truthy (member options "maxFileSize")) eqn:H1,
    (truthy (member options "max-file-size")) eqn:H2,
    (truthy (env_value env)) eqn:He;
    simpl; rewrite ?Ho, ?H1, ?H2, ?He; simpl; rewrite ?He; reflexivity.
Qed.

(** [init] parses the resolved value once and keeps the answer; it ends
    normally whatever [bytes.parse] answered. *)
Lemma init_parses_once (options : jsval) (env : option string)
    (st : module_state) :
  init options env st
  = (Ok tt,
     ModuleState (parsed_value (bytes_parse (resolved_maxFileSize options env)))).
Proof. reflexivity. Qed.

(** C4, at a value that does not parse: [bytes.parse] answers [null]
    and does not throw, so [init] ends normally and leaves [null] as the
    limit. *)
Theorem init_unparsable_not_raised (options : jsval) (env : option string)
    (st : module_state) :
  bytes_parse (resolved_maxFileSize options env) = None →
  init options env st = (Ok tt, ModuleState VNull).
Proof. intros Hnull. rewrite init_parses_once. by rewrite Hnull. Qed.

End Init.

Lemma init_unparsable_not_raised_witness :
  @init sample_externals (VObj {[ "maxFileSize" := VStr "abc" ]}) None
    (@initial_state sample_externals)
  = (Ok tt, ModuleState VNull).
Proof. apply (@init_unparsable_not_raised sample_externals). reflexivity. Defined.

(** *** The conversion check *)

Section Conversion.

Context `{Externals}.

(** C5, at an input type that names what every object inherits: the
    table answers something that is not a list, and asking it for
    [includes] throws. *)
Theorem fileConversion_inherited_name_throws :
  fileTypes !! "constructor" = None →
  models.templateContent.fileConversion (VStr "constructor") (VStr "pdf")
  = Throw TypeError.
Proof.
  intros Hown.
  assert (table_get "constructor" = Inherited) as Hget.
  { unfold table_get. by rewrite Hown. }
  unfold models.templateContent.fileConversion. simpl.
  match goal with
  | |- context [table_get ?k] => change k with "constructor"
  end.
  by rewrite Hget.
Qed.

(** X1: away from the inherited names the conversion check answers what
    the specification expects of it, for file types that are strings or
    absent. *)
Theorem fileConversion_as_expected (input output : option string) :
  table_get (toLowerCase (default "" input)) ≠ Inherited →
  models.templateContent.fileConversion (type_arg input) (type_arg output)
  = Ok (fileConversion_expected input output).
Proof.
  intros Hnot. unfold models.templateContent.fileConversion.
  destruct input as [s|]; simpl; [|reflexivity].
  destruct s as [|c s], output as [[|d o]|]; simpl; try reflexivity.
  simpl in Hnot. unfold table_get in *.
  destruct (fileTypes !! String (lower_char c) (toLowerCase s)); simpl;
    [reflexivity|].
  destruct (bool_decide _); [done|reflexivity].
Qed.

End Conversion.

Lemma fileConversion_inherited_name_throws_witness :
  @models.templateContent.fileConversion sample_externals
    (VStr "constructor") (VStr "pdf")
  = Throw TypeError.
Proof.
  apply (@fileConversion_inherited_name_throws sample_externals). reflexivity.
Defined.

Lemma fileConversion_as_expected_witness :
  @models.templateContent.fileConversion sample_externals
    (VStr "DOCX") (VStr "Pdf") = Ok true
  ∧ @models.templateContent.fileConversion sample_externals
      (VStr "docx") (VStr "xlsx") = Ok false.
Proof.
  split.
  - apply (@fileConversion_as_expected sample_externals (Some "DOCX") (Some "Pdf")).
    discriminate.
  - apply (@fileConversion_as_expected sample_externals (Some "docx") (Some "xlsx")).
    discriminate.
Defined.

(** ** Further properties of the code *)

(** *** Strings and the primitive validators *)

Lemma lower_char_idempotent (c : ascii) :
  lower_char (lower_char c) = lower_char c.
Proof. destruct c as [[] [] [] [] [] [] [] []]; reflexivity. Qed.

Lemma lower_char_whitespace (c : ascii) :
  is_whitespace (lower_char c) = is_whitespace c.
Proof. destruct c as [[] [] [] [] [] [] [] []]; reflexivity. Qed.

Lemma toLowerCase_idempotent (s : string) :
  toLowerCase (toLowerCase s) = toLowerCase s.
Proof.
  induction s as [|c s IH]; simpl; [done|].
  by rewrite lower_char_idempotent, IH.
Qed.

Lemma toLowerCase_length (s : string) :
  String.length (toLowerCase s) = String.length s.
Proof. induction s as [|c s IH]; simpl; [done|]. by rewrite IH. Qed.

Lemma toLowerCase_whitespace (s : string) :
  all_whitespace (toLowerCase s) = all_whitespace s.
Proof.
  unfold all_whitespace.
  induction s as [|c s IH]; simpl; [done|].
  by rewrite lower_char_whitespace, IH.
Qed.

Lemma trim_start_nil (l : list ascii) :
  trim_start l = [] ↔ forallb is_whitespace l = true.
Proof.
  induction l as [|c l IH]; simpl; [done|].
  destruct (is_whitespace c); simpl; [done|]. split; discriminate.
Qed.

Lemma trim_start_head (l : list ascii) :
  match trim_start l with
  | [] => True
  | c :: _ => is_whitespace c = false
  end.
Proof.
  induction l as [|c l IH]; simpl; [done|].
  destruct (is_whitespace c) eqn:Hc; [done|]. exact Hc.
Qed.

Lemma forallb_rev {A} (f : A → bool) (l : list A) :
  forallb f (rev l) = forallb f l.
Proof.
  induction l as [|a l IH]; simpl; [done|].
  rewrite forallb_app, IH. simpl. rewrite andb_true_r. apply andb_comm.
Qed.

Lemma string_of_list_ascii_length (l : list ascii) :
  String.length (string_of_list_ascii l) = length l.
Proof. induction l as [|c l IH]; simpl; [done|]. by rewrite IH. Qed.

(** What the [validator] package's emptiness test comes to. *)
Lemma isEmpty_all_whitespace (s : string) :
  validator_isEmpty_ignore_whitespace s = all_whitespace s.
Proof.
  unfold validator_isEmpty_ignore_whitespace, trim, all_whitespace.
  rewrite string_of_list_ascii_length, length_rev.
  set (l := list_ascii_of_string s).
  destruct (forallb is_whitespace l) eqn:Hall.
  - apply trim_start_nil in Hall. by rewrite Hall.
  - pose proof (trim_start_head l) as Hhead.
    destruct (trim_start l) as [|c r] eqn:Htrim.
    { apply trim_start_nil in Htrim. congruence. }
    destruct (trim_start (rev (c :: r))) as [|d r'] eqn:Hrev; [|done].
    apply trim_start_nil in Hrev. rewrite forallb_rev in Hrev.
    simpl in Hrev. rewrite Hhead in Hrev. discriminate.
Qed.

Lemma forallb_false_elem {A} (f : A → bool) (l : list A) :
  forallb f l = false → ∃ a, a ∈ l ∧ f a = false.
Proof.
  induction l as [|a l IH]; simpl; [discriminate|].
  destruct (f a) eqn:Ha; simpl.
  - intros (b & Hin & Hb)%IH. exists b. split; [by right|done].
  - intros _. exists a. split; [by left|done].
Qed.

(** X3: the non-empty-string test accepts exactly the strings that hold a
    code unit other than white space; every other value, truthy or not,
    is turned away. *)
Theorem isNonEmptyString_characterised (x : jsval) :
  validatorUtils.isNonEmptyString x = true
  ↔ ∃ s c, x = VStr s ∧ c ∈ list_ascii_of_string s ∧ is_whitespace c = false.
Proof.
  split.
  - destruct x as [| | | |s| |]; try discriminate. simpl.
    rewrite isEmpty_all_whitespace. unfold all_whitespace.
    intros Hne. apply negb_true_iff in Hne.
    apply forallb_false_elem in Hne. destruct Hne as (c & Hin & Hc).
    by exists s, c.
  - intros (s & c & -> & Hin & Hc). simpl.
    rewrite isEmpty_all_whitespace. unfold all_whitespace.
    apply negb_true_iff, not_true_iff_false. intros Hall.
    rewrite forallb_forall in Hall.
    apply list_elem_of_In in Hin. specialize (Hall c Hin). congruence.
Qed.

Section CaseInsensitive.

Context `{Externals}.

(** X4: the convertTo validator, the fileType validator and the
    conversion check look at their string arguments only through the
    lower-case form: lower-casing an argument changes no verdict. *)
Theorem file_type_checks_ignore_case (s o : string) :
  models.carbone.convertTo (VStr (toLowerCase s))
  = models.carbone.convertTo (VStr s)
  ∧ models.templateContent.fileType (VStr (toLowerCase s))
    = models.templateContent.fileType (VStr s)
  ∧ models.templateContent.fileConversion
      (VStr (toLowerCase s)) (VStr (toLowerCase o))
    = models.templateContent.fileConversion (VStr s) (VStr o).
Proof.
  unfold models.carbone.convertTo, models.templateContent.fileType,
    models.templateContent.fileConversion.
  simpl.
  rewrite !isEmpty_all_whitespace, !toLowerCase_whitespace,
    !toLowerCase_idempotent, !toLowerCase_length.
  done.
Qed.

End CaseInsensitive.

(** *** The base validator, field by field *)

Lemma entries_for_app (f : field) (l1 l2 : list verror) :
  entries_for f (l1 ++ l2) = (entries_for f l1 + entries_for f l2)%nat.
Proof. unfold entries_for. by rewrite filter_app, length_app. Qed.

Lemma data_verdict (v : jsval) :
  models.carbone.data v
  = match v with
    | VObj _ | VArr (_ :: _) => true
    | _ => false
    end.
Proof.
  unfold models.carbone.data.
  destruct v as [| |b|n|s|[|d items]|o]; simpl;
    rewrite ?andb_false_r; reflexivity.
Qed.

Lemma options_verdict (v : jsval) :
  models.carbone.options v
  = match v with
    | VObj _ => true
    | _ => negb (truthy v)
    end.
Proof.
  unfold models.carbone.options.
  destruct v as [| |b|n|s|items|o]; simpl; try reflexivity;
    by destruct (truthy _).
Qed.

Section BaseFields.

Context `{Externals}.

(** The list of the base validator is the entries for [data], then those
    for [options] and what it nests, then those for [formatters]. *)
Lemma carbone_parts (obj : object) :
  modelValidation.carbone obj
  = (data_part obj ++ options_part obj ++ formatters_part obj)%list.
Proof.
  unfold modelValidation.carbone, data_part, options_part, convertTo_part,
    reportName_part, formatters_part, push.
  destruct (models.carbone.data (prop obj "data"));
    (destruct (models.carbone.options (prop obj "options"));
     [destruct (truthy (prop obj "options"));
      [destruct
         (models.carbone.convertTo (member (prop obj "options") "convertTo"));
       destruct
         (models.carbone.reportName (member (prop obj "options") "reportName"))
      |]
     |]);
    (destruct (models.carbone.formatters (prop obj "formatters"));
     [destruct (truthy (prop obj "formatters"));
      [destruct (telejson_parse (prop obj "formatters"))|]
     |]);
    reflexivity.
Qed.

Lemma entries_for_parts (f : field) (obj : object) :
  entries_for f (modelValidation.carbone obj)
  = (entries_for f (data_part obj) + entries_for f (options_part obj)
     + entries_for f (formatters_part obj))%nat.
Proof. rewrite carbone_parts, !entries_for_app. lia. Qed.

Lemma entries_for_data_part (f : field) (obj : object) :
  f ≠ Fdata → entries_for f (data_part obj) = 0.
Proof.
  unfold data_part. intros Hf.
  destruct (models.carbone.data (prop obj "data")), f; done.
Qed.

Lemma entries_for_formatters_part (f : field) (obj : object) :
  f ≠ Fformatters → entries_for f (formatters_part obj) = 0.
Proof.
  unfold formatters_part. intros Hf.
  destruct (models.carbone.formatters (prop obj "formatters"));
    [destruct (_ && _)|]; destruct f; done.
Qed.

Lemma entries_for_options_part_other (f : field) (obj : object) :
  f = Fdata ∨ f = Fformatters → entries_for f (options_part obj) = 0.
Proof.
  unfold options_part, convertTo_part, reportName_part.
  intros [-> | ->];
    destruct (models.carbone.options (prop obj "options")),
      (truthy (prop obj "options")),
      (models.carbone.convertTo (member (prop obj "options") "convertTo")),
      (models.carbone.reportName (member (prop obj "options") "reportName"));
    done.
Qed.

(** X5: the base validator records its [data] entry exactly when [data]
    is neither an object nor a non-empty array: an absent or [null]
    [data], an empty array and every primitive are reported, an empty
    object is not. *)
Theorem carbone_data_entry (obj : object) :
  entries_for Fdata (modelValidation.carbone obj)
  = match prop obj "data" with
    | VObj _ | VArr (_ :: _) => 0
    | _ => 1
    end.
Proof.
  rewrite entries_for_parts, entries_for_options_part_other by auto.
  rewrite entries_for_formatters_part by done.
  unfold data_part. rewrite data_verdict.
  destruct (prop obj "data") as [| |b|n|s|[|d items]|o]; reflexivity.
Qed.

(** X6: when [options] is a truthy value that is not an object (a string,
    a number, an array) the base validator records the [options] entry
    and looks at neither [convertTo] nor [reportName]; when it is falsy
    nothing is recorded for the three; when it is an object there is no
    [options] entry, and a [reportName] entry exactly when [reportName] is
    truthy without being a non-blank string. *)
Theorem carbone_options_entries (obj : object) :
  match prop obj "options" with
  | VObj o =>
      entries_for Foptions (modelValidation.carbone obj) = 0
      ∧ entries_for FreportName (modelValidation.carbone obj)
        = (if truthy (prop o "reportName")
              && negb (validatorUtils.isNonEmptyString (prop o "reportName"))
           then 1 else 0)
  | v =>
      entries_for Foptions (modelValidation.carbone obj)
      = (if truthy v then 1 else 0)
      ∧ entries_for FconvertTo (modelValidation.carbone obj) = 0
      ∧ entries_for FreportName (modelValidation.carbone obj) = 0
  end.
Proof.
  assert (∀ f, f ≠ Fdata → f ≠ Fformatters →
            entries_for f (modelValidation.carbone obj)
            = entries_for f (options_part obj)) as Honly.
  { intros f Hd Hf.
    rewrite entries_for_parts, entries_for_data_part,
      entries_for_formatters_part by done. lia. }
  rewrite !Honly by done.
  unfold options_part, convertTo_part, reportName_part,
    models.carbone.reportName.
  rewrite options_verdict.
  destruct (prop obj "options") as [| |b|n|s|items|o];
    try (simpl; repeat case_match; done).
  change (member (VObj o) "reportName") with (prop o "reportName").
  change (truthy (VObj o)) with true. cbv iota.
  destruct (models.carbone.convertTo (member (VObj o) "convertTo")),
    (truthy (prop o "reportName")),
    (validatorUtils.isNonEmptyString (prop o "reportName")); done.
Qed.

(** X7: for [formatters] the base validator records nothing when the
    value is falsy or is a non-blank string that [telejson.parse]
    accepts; one "Invalid value" entry when it is truthy without being a
    non-blank string; and one "could not be parsed" entry, carrying the
    raw text, when it is a non-blank string that [telejson.parse]
    rejects. *)
Theorem carbone_formatters_entry (obj : object) :
  (truthy (prop obj "formatters") = false →
   entries_for Fformatters (modelValidation.carbone obj) = 0)
  ∧ (truthy (prop obj "formatters") = true →
     validatorUtils.isNonEmptyString (prop obj "formatters") = false →
     entries_for Fformatters (modelValidation.carbone obj) = 1
     ∧ ValueError (prop obj "formatters") "Invalid value `formatters`."
       ∈ modelValidation.carbone obj)
  ∧ (validatorUtils.isNonEmptyString (prop obj "formatters") = true →
     telejson_parse (prop obj "formatters") = true →
     entries_for Fformatters (modelValidation.carbone obj) = 0)
  ∧ (validatorUtils.isNonEmptyString (prop obj "formatters") = true →
     telejson_parse (prop obj "formatters") = false →
     entries_for Fformatters (modelValidation.carbone obj) = 1
     ∧ ValueError (prop obj "formatters")
         "Formatters could not be parsed into formatters object. See 'https://www.npmjs.com/package/telejson'."
       ∈ modelValidation.carbone obj).
Proof.
  assert (∀ v, validatorUtils.isNonEmptyString v = true → truthy v = true)
    as Htruthy.
  { intros [| | | |[|c s]| |]; simpl; done. }
  assert (entries_for Fformatters (modelValidation.carbone obj)
          = entries_for Fformatters (formatters_part obj)) as ->.
  { rewrite entries_for_parts, entries_for_data_part,
      entries_for_options_part_other by auto. lia. }
  rewrite carbone_parts.
  unfold formatters_part, models.carbone.formatters.
  split; [|split; [|split]].
  - by intros ->.
  - intros -> ->. simpl. split; [done|]. set_solver.
  - intros Hs Hp. by rewrite (Htruthy _ Hs), Hs, Hp.
  - intros Hs Hp. rewrite (Htruthy _ Hs), Hs, Hp. simpl.
    split; [done|]. set_solver.
Qed.

End BaseFields.

(** *** The size check under failing file operations *)

Section SizeFaults.

Context `{Externals}.

(** The verdict of the size check once its preconditions hold, by the
    plan of the three file operations. *)
Lemma size_by_plan (content encoding limit : jsval) (w : world) (z : Z) :
  models.templateContent.content content = true →
  models.templateContent.encodingType encoding = true →
  bytes_parse limit = Some (Num z) → (1 ≤ z)%Z →
  fst (models.templateContent.size content encoding limit w)
  = Ok (fault_free 3 (faults w)
        && (Z.of_nat (length (Buffer_from content encoding)) <=? z)%Z)
  ∧ (fault_free 3 (faults w) = false →
     ConsoleLog IOError
     ∈ io_log (snd (models.templateContent.size content encoding limit w))).
Proof.
  intros Hc He Hz Hpos.
  unfold models.templateContent.size.
  rewrite Hc, He, limit_tests_positive, Hz. simpl.
  destruct (Z.leb_spec 1 z) as [_|]; [|lia]. simpl.
  unfold models.templateContent.size_try, tmp_fileSync, writeFile,
    statSync_size, next_fault, fault_free.
  destruct w as [files plan log]. simpl.
  destruct plan as [|[] [|[] [|[] rest]]]; simpl;
    rewrite ?lookup_insert_eq; simpl;
    (split; [reflexivity|]); intros Hfault; try discriminate;
    unfold console_log, removeCallback, record; simpl;
    set_solver.
Qed.

(** X8: once the preconditions of the size check hold, a failure of
    creating, writing or measuring the temporary file makes the check
    answer false, whatever the size and the limit, and the failure is
    written to the console. *)
Theorem size_io_failure_answers_false (content encoding limit : jsval)
    (w : world) (z : Z) :
  models.templateContent.content content = true →
  models.templateContent.encodingType encoding = true →
  bytes_parse limit = Some (Num z) → (1 ≤ z)%Z →
  fault_free 3 (faults w) = false →
  fst (models.templateContent.size content encoding limit w) = Ok false
  ∧ ConsoleLog IOError
    ∈ io_log (snd (models.templateContent.size content encoding limit w)).
Proof.
  intros Hc He Hz Hpos Hfault.
  destruct (size_by_plan content encoding limit w z Hc He Hz Hpos)
    as [Hverdict Hlog].
  split; [|by apply Hlog].
  by rewrite Hverdict, Hfault.
Qed.

(** X9: the size check is monotone in the limit: content accepted under
    a limit is accepted, in the same world, under every larger one. *)
Theorem size_monotone_in_limit (content encoding limit1 limit2 : jsval)
    (w : world) (z1 z2 : Z) :
  bytes_parse limit1 = Some (Num z1) →
  bytes_parse limit2 = Some (Num z2) →
  (z1 ≤ z2)%Z →
  fst (models.templateContent.size content encoding limit1 w) = Ok true →
  fst (models.templateContent.size content encoding limit2 w) = Ok true.
Proof.
  intros Hz1 Hz2 Hle Haccepted.
  destruct (models.templateContent.content content) eqn:Hc.
  2: { unfold models.templateContent.size in Haccepted.
       rewrite Hc in Haccepted. discriminate. }
  destruct (models.templateContent.encodingType encoding) eqn:He.
  2: { unfold models.templateContent.size in Haccepted.
       rewrite Hc, He in Haccepted. discriminate. }
  destruct (Z.leb_spec 1 z1) as [Hpos|Hsmall].
  2: { unfold models.templateContent.size in Haccepted.
       rewrite Hc, He, limit_tests_positive, Hz1 in Haccepted.
       simpl in Haccepted.
       destruct (Z.leb_spec 1 z1); [lia|]. discriminate. }
  destruct (size_by_plan content encoding limit1 w z1 Hc He Hz1 Hpos)
    as [Hv1 _].
  destruct (size_by_plan content encoding limit2 w z2 Hc He Hz2 ltac:(lia))
    as [Hv2 _].
  rewrite Hv1 in Haccepted. injection Haccepted as Haccepted.
  apply andb_true_iff in Haccepted as [Hplan Hfits].
  rewrite Hv2, Hplan. simpl. f_equal.
  apply Z.leb_le in Hfits. apply Z.leb_le. lia.
Qed.

End SizeFaults.

Lemma size_io_failure_answers_false_witness :
  fst (@models.templateContent.size sample_externals
         (VStr "hello") (VStr "binary") (VStr "1KB")
         (World ∅ [false; true] []))
  = Ok false.
Proof.
  apply (@size_io_failure_answers_false sample_externals
           (VStr "hello") (VStr "binary") (VStr "1KB")
           (World ∅ [false; true] []) 1024%Z);
    [reflexivity|reflexivity|reflexivity|lia|reflexivity].
Defined.

Lemma size_monotone_in_limit_witness :
  fst (@models.templateContent.size sample_externals
         (VStr "hello") (VStr "binary") (VStr "1KB") empty_world)
  = Ok true.
Proof.
  apply (@size_monotone_in_limit sample_externals
           (VStr "hello") (VStr "binary") (VNum (Num 5)) (VStr "1KB")
           empty_world 5%Z 1024%Z);
    [reflexivity|reflexivity|lia|reflexivity].
Defined.

(** *** The template validator, branch by branch *)

Section TemplateBranches.

Context `{Externals}.

Lemma nonblank_is_string (v : jsval) :
  validatorUtils.isNonEmptyString v = true →
  ∃ c s, v = VStr (String c s).
Proof.
  destruct v as [| | | |[|c s]| |]; try discriminate. intros _. by exists c, s.
Qed.

Lemma mandatory_fields (tpl : jsval) :
  models.templateContent.mandatory tpl = true →
  models.template tpl = true
  ∧ models.templateContent.content (member tpl "content") = true
  ∧ validatorUtils.isNonEmptyString (member tpl "encodingType") = true
  ∧ validatorUtils.isNonEmptyString (member tpl "fileType") = true.
Proof.
  unfold models.templateContent.mandatory, models.templateContent.content.
  intros [[Hc He]%andb_true_iff Hf]%andb_true_iff.
  repeat split; try done.
  destruct tpl; try done.
Qed.

Lemma carbone_empty (obj : object) :
  modelValidation.carbone obj = [] →
  data_part obj = [] ∧ options_part obj = [] ∧ formatters_part obj = [].
Proof.
  rewrite carbone_parts.
  intros [Hd [Ho Hf]%app_eq_nil]%app_eq_nil. done.
Qed.

(** With an empty base list the output type is a non-blank string. *)
Lemma outputFileType_nonblank (obj : object) :
  modelValidation.carbone obj = [] →
  validatorUtils.isNonEmptyString (modelValidation.outputFileType obj) = true.
Proof.
  intros (_ & Ho & _)%carbone_empty.
  unfold modelValidation.outputFileType.
  destruct (truthy (prop obj "options")) eqn:Hopt; [|done]. simpl.
  destruct (truthy (member (prop obj "options") "convertTo")) eqn:Hct; [|done].
  unfold options_part, convertTo_part in Ho. rewrite Hopt in Ho.
  destruct (models.carbone.options (prop obj "options")); [|done].
  apply app_eq_nil in Ho as [Ho _].
  destruct (models.carbone.convertTo _) eqn:Hok; [|done].
  unfold models.carbone.convertTo in Hok. rewrite Hct in Hok.
  by apply andb_true_iff in Hok as [Hok _].
Qed.

(** The conversion check on two non-blank strings. *)
Lemma fileConversion_nonblank (input output : jsval) :
  validatorUtils.isNonEmptyString input = true →
  validatorUtils.isNonEmptyString output = true →
  ∃ s o, input = VStr s ∧ output = VStr o
    ∧ models.templateContent.fileConversion input output
      = match table_get (toLowerCase s) with
        | Targets outputs => Ok (bool_decide (toLowerCase o ∈ outputs))
        | Inherited => Throw TypeError
        | Missing => Ok false
        end.
Proof.
  intros (c & s & ->)%nonblank_is_string (d & o & ->)%nonblank_is_string.
  exists (String c s), (String d o). split; [done|]. split; [done|].
  unfold models.templateContent.fileConversion. simpl.
  by destruct (table_get _).
Qed.

Lemma template_when_base_fails (obj : object) (limit : jsval) (w : world) :
  modelValidation.carbone obj ≠ [] →
  modelValidation.template obj limit w = (Ok (modelValidation.carbone obj), w).
Proof.
  intros Hbase. unfold modelValidation.template.
  by destruct (modelValidation.carbone obj).
Qed.

Lemma template_when_mandatory_fails (obj : object) (limit : jsval)
    (w : world) :
  modelValidation.carbone obj = [] →
  models.templateContent.mandatory (prop obj "template") = false →
  modelValidation.template obj limit w
  = (Ok [if models.template (prop obj "template") then mandatory_entry
         else template_entry (prop obj "template")], w).
Proof.
  intros Hbase Hm. unfold modelValidation.template. rewrite Hbase. simpl.
  destruct (models.template (prop obj "template")); simpl; [|done].
  by rewrite Hm.
Qed.

Lemma template_when_fields_present (obj : object) (limit : jsval)
    (w : world) :
  modelValidation.carbone obj = [] →
  models.templateContent.mandatory (prop obj "template") = true →
  modelValidation.template obj limit w
  = (match conversion_phase obj with
     | Ok conversion_part =>
         Ok (fileType_failure (prop obj "template")
             ++ encodingType_failure (prop obj "template")
             ++ (size_phase obj limit w).1 ++ conversion_part)%list
     | Throw e => Throw e
     end, (size_phase obj limit w).2).
Proof.
  intros Hbase Hm.
  destruct (mandatory_fields _ Hm) as (Ht & Hc & _ & _).
  unfold modelValidation.template, size_phase, conversion_phase.
  rewrite Hbase. simpl. rewrite Ht. simpl. rewrite Hm, Hc. simpl.
  unfold fileType_failure, encodingType_failure, push.
  unfold mbind, io_bind, io_lift, io_return.
  destruct (models.templateContent.fileType _),
    (models.templateContent.encodingType _); simpl;
    try (destruct (models.templateContent.fileConversion _ _) as [[|]|];
         reflexivity).
  destruct (size_returns (member (prop obj "template") "content")
              (member (prop obj "template") "encodingType") limit w)
    as [b Hb].
  destruct (models.templateContent.size _ _ _ w) as [verdict w'].
  simpl in Hb. subst verdict.
  destruct b, (models.templateContent.fileConversion _ _) as [[|]|];
    reflexivity.
Qed.

Lemma carbone_messages_known (obj : object) :
  Forall (λ e, is_Some (field_of_message (message_of e)))
    (modelValidation.carbone obj).
Proof.
  rewrite carbone_parts.
  unfold data_part, options_part, convertTo_part, reportName_part,
    formatters_part.
  repeat apply Forall_app_2; repeat case_match;
    repeat (apply Forall_cons; split; [by eexists|]); apply Forall_nil_2.
Qed.

Lemma size_keeps_world_when_not_positive (content encoding limit : jsval)
    (w : world) :
  positive_byte_count (bytes_parse limit) = false →
  models.templateContent.size content encoding limit w = (Ok false, w).
Proof.
  intros Hlimit. unfold models.templateContent.size.
  rewrite limit_tests_positive, Hlimit. simpl.
  by destruct (negb _).
Qed.

Lemma size_keeps_files (content encoding limit : jsval) (w : world) :
  tmp_files (models.templateContent.size content encoding limit w).2
  = tmp_files w.
Proof.
  unfold models.templateContent.size.
  destruct (negb _); [done|].
  destruct (_ || _); [done|].
  pose proof (size_try_files content encoding (bytes_parse limit) w) as Htry.
  destruct (models.templateContent.size_try _ _ _ w) as [[tmpFile outcome] w'].
  destruct tmpFile as [name|], outcome as [b|e]; simpl; done.
Qed.

(** X10: the entry "Invalid value `template.content`." is in no list the
    template validator returns: a content that would fail its own check
    has already failed the mandatory-fields check. *)
Theorem template_content_entry_never_recorded (obj : object) (limit : jsval)
    (w : world) :
  match (modelValidation.template obj limit w).1 with
  | Ok errors =>
      Forall (λ e, message_of e ≠ "Invalid value `template.content`.") errors
  | Throw _ => True
  end.
Proof.
  destruct (modelValidation.carbone obj) as [|e0 l0] eqn:Hbase.
  2: { rewrite template_when_base_fails by by rewrite Hbase. simpl.
       eapply Forall_impl; [apply carbone_messages_known|].
       intros e [f Hf] Heq. rewrite Heq in Hf. discriminate. }
  destruct (models.templateContent.mandatory (prop obj "template")) eqn:Hm.
  2: { rewrite template_when_mandatory_fails by done. simpl.
       apply Forall_cons; split; [|apply Forall_nil_2].
       by destruct (models.template _). }
  rewrite template_when_fields_present by done. simpl.
  unfold conversion_phase, size_phase, fileType_failure, encodingType_failure.
  destruct (models.templateContent.fileConversion _ _) as [[|]|]; [| |done];
    destruct (models.templateContent.fileType _),
      (models.templateContent.encodingType _); simpl;
    try destruct (models.templateContent.size _ _ _ w) as [[[|]|] w'];
    simpl; repeat (apply Forall_cons; split; [done|]); apply Forall_nil_2.
Qed.

(** X11: the template validator ends with an exception in one case only:
    the base list is empty, the mandatory fields are there, and the file
    type, lower-cased, names something the table inherits rather than
    holds; the exception is then a TypeError.  In particular no value of
    the wrong type in the body makes it throw. *)
Theorem template_throws_iff (obj : object) (limit : jsval) (w : world)
    (e : exn) :
  (modelValidation.template obj limit w).1 = Throw e
  ↔ e = TypeError
    ∧ modelValidation.carbone obj = []
    ∧ models.templateContent.mandatory (prop obj "template") = true
    ∧ ∃ s, member (prop obj "template") "fileType" = VStr s
           ∧ table_get (toLowerCase s) = Inherited.
Proof.
  destruct (modelValidation.carbone obj) as [|e0 l0] eqn:Hbase.
  2: { rewrite template_when_base_fails by by rewrite Hbase.
       split; [done|]. by intros (_ & ? & _). }
  destruct (models.templateContent.mandatory (prop obj "template")) eqn:Hm.
  2: { rewrite template_when_mandatory_fails by done.
       split; [done|]. by intros (_ & _ & ? & _). }
  rewrite template_when_fields_present by done. simpl.
  destruct (mandatory_fields _ Hm) as (_ & _ & _ & Hft).
  destruct (fileConversion_nonblank _ _ Hft (outputFileType_nonblank _ Hbase))
    as (s & o & Hs & Ho & Hconv).
  unfold conversion_phase. rewrite Hconv, Hs.
  destruct (table_get (toLowerCase s)) as [outputs| |] eqn:Hget.
  - destruct (bool_decide _); split; try done;
      intros (_ & _ & _ & s' & [= <-] & Hinh); congruence.
  - split.
    + intros [= <-]. repeat split; try done. by exists s.
    + by intros (-> & _).
  - split; [done|]. intros (_ & _ & _ & s' & [= <-] & Hinh). congruence.
Qed.

(** X12: a request that fails the base check, the mandatory-fields check,
    the fileType check or the encodingType check, or that meets a limit
    which does not parse to a positive byte count, is answered without
    any file operation: the world is left as it was. *)
Theorem template_no_io_when_invalid (obj : object) (limit : jsval)
    (w : world) :
  modelValidation.carbone obj ≠ []
  ∨ models.templateContent.mandatory (prop obj "template") = false
  ∨ models.templateContent.fileType
      (member (prop obj "template") "fileType") = false
  ∨ models.templateContent.encodingType
      (member (prop obj "template") "encodingType") = false
  ∨ positive_byte_count (bytes_parse limit) = false →
  (modelValidation.template obj limit w).2 = w.
Proof.
  intros Hinvalid.
  destruct (modelValidation.carbone obj) as [|e0 l0] eqn:Hbase.
  2: { by rewrite template_when_base_fails by by rewrite Hbase. }
  destruct (models.templateContent.mandatory (prop obj "template")) eqn:Hm.
  2: { by rewrite template_when_mandatory_fails by done. }
  rewrite template_when_fields_present by done. simpl.
  unfold size_phase, fileType_failure, encodingType_failure.
  destruct Hinvalid as [?|[?|[-> |[-> | Hlimit]]]]; try done.
  - by destruct (models.templateContent.fileType _).
  - destruct (models.templateContent.fileType _),
      (models.templateContent.encodingType _); simpl; try done.
    by rewrite size_keeps_world_when_not_positive.
Qed.

(** X13: whatever the body, the stored limit and the plan of failing
    file operations, the temporary files after [validateTemplate] are
    those before it. *)
Theorem validateTemplate_keeps_tmp_files (st : module_state) (body : object)
    (x : exchange) (w : world) :
  tmp_files (validateTemplate st body x w).2 = tmp_files w.
Proof.
  assert (tmp_files (modelValidation.template body (maxFileSize st) w).2
          = tmp_files w) as Htemplate.
  { destruct (modelValidation.carbone body) as [|e0 l0] eqn:Hbase.
    2: { by rewrite template_when_base_fails by by rewrite Hbase. }
    destruct (models.templateContent.mandatory (prop body "template")) eqn:Hm.
    2: { by rewrite template_when_mandatory_fails by done. }
    rewrite template_when_fields_present by done. simpl.
    unfold size_phase.
    destruct (_ ++ _)%list; [|done].
    pose proof (size_keeps_files (member (prop body "template") "content")
                  (member (prop body "template") "encodingType")
                  (maxFileSize st) w) as Hfiles.
    by destruct (models.templateContent.size _ _ _ w). }
  unfold validateTemplate, mbind, io_bind.
  by destruct (modelValidation.template body (maxFileSize st) w) as [[errs|e] w'].
Qed.

End TemplateBranches.

Lemma template_no_io_when_invalid_witness :
  (@modelValidation.template sample_externals scenario_body (VStr "25MB")
     (World ∅ [true] [])).2
  = World ∅ [true] [].
Proof.
  apply (@template_no_io_when_invalid sample_externals).
  right. left. reflexivity.
Defined.

(** *** Outcomes of whole requests *)

Section Outcomes.

Context `{Externals}.

Lemma upload_body_base (content encodingType fileType : string) :
  modelValidation.carbone (upload_body content encodingType fileType) = [].
Proof. reflexivity. Qed.

(** X14: a file type the table knows nothing of is reported twice: the
    template validator returns the fileType entry, then the encodingType
    entry if that field fails as well, then the conversion entry, and
    runs no size check. *)
Theorem unknown_fileType_reported_twice (obj : object) (limit : jsval)
    (w : world) (s : string) :
  modelValidation.carbone obj = [] →
  models.templateContent.mandatory (prop obj "template") = true →
  member (prop obj "template") "fileType" = VStr s →
  table_get (toLowerCase s) = Missing →
  modelValidation.template obj limit w
  = (Ok ([ValueError (VStr s) "Invalid value `template.fileType`."]
         ++ encodingType_failure (prop obj "template")
         ++ [conversion_entry (prop obj "template")
               (modelValidation.outputFileType obj)])%list,
     w).
Proof.
  intros Hbase Hm Hs Hget.
  rewrite template_when_fields_present by done.
  destruct (mandatory_fields _ Hm) as (_ & _ & _ & Hft).
  destruct (fileConversion_nonblank _ _ Hft (outputFileType_nonblank _ Hbase))
    as (s' & o & Hs' & Ho & Hconv).
  rewrite Hs in Hs'. injection Hs' as <-.
  unfold conversion_phase, size_phase, fileType_failure.
  rewrite Hconv, Hget.
  assert (models.templateContent.fileType
            (member (prop obj "template") "fileType") = false) as ->.
  { unfold models.templateContent.fileType. rewrite Hs.
    unfold table_in. rewrite Hget. apply andb_false_r. }
  simpl. rewrite Hs. reflexivity.
Qed.

(** X15: an upload whose content is a non-blank string, whose encoding is
    one of the three, whose file type is (in some letter case) a key of
    the table that lists "pdf", and whose decoded content fits a limit
    that parses to a positive byte count, is returned the empty list when
    no file operation fails. *)
Theorem well_formed_upload_accepted (content encodingType fileType : string)
    (limit : jsval) (w : world) (outputs : list string) (z : Z) :
  all_whitespace content = false →
  encodingType ∈ ["base64"; "binary"; "hex"] →
  all_whitespace fileType = false →
  fileTypes !! toLowerCase fileType = Some outputs →
  "pdf" ∈ outputs →
  bytes_parse limit = Some (Num z) →
  (1 ≤ z)%Z →
  (Z.of_nat (length (Buffer_from (VStr content) (VStr encodingType))) ≤ z)%Z →
  fault_free 3 (faults w) = true →
  (modelValidation.template (upload_body content encodingType fileType)
     limit w).1
  = Ok [].
Proof.
  intros Hc He Hf Hkey Hpdf Hz Hpos Hfits Hplan.
  set (obj := upload_body content encodingType fileType).
  assert (prop obj "template"
          = VObj {[ "content" := VStr content;
                    "encodingType" := VStr encodingType;
                    "fileType" := VStr fileType ]}) as Htpl by reflexivity.
  assert (member (prop obj "template") "content" = VStr content) as Hmc
    by reflexivity.
  assert (member (prop obj "template") "encodingType" = VStr encodingType)
    as Hme by reflexivity.
  assert (member (prop obj "template") "fileType" = VStr fileType) as Hmf
    by reflexivity.
  assert (modelValidation.outputFileType obj = VStr "pdf") as Hout
    by reflexivity.
  assert (models.templateContent.content (VStr content) = true) as Hcontent.
  { unfold models.templateContent.content. simpl.
    by rewrite isEmpty_all_whitespace, Hc. }
  assert (models.templateContent.encodingType (VStr encodingType) = true)
    as Hencoding.
  { unfold models.templateContent.encodingType, validator_isIn.
    rewrite !elem_of_cons, elem_of_nil in He.
    destruct He as [-> | [-> | [-> | []]]]; reflexivity. }
  assert (validatorUtils.isNonEmptyString (VStr encodingType) = true)
    as Hencoding_nonblank.
  { rewrite !elem_of_cons, elem_of_nil in He.
    destruct He as [-> | [-> | [-> | []]]]; reflexivity. }
  assert (models.templateContent.fileType (VStr fileType) = true) as HfileType.
  { unfold models.templateContent.fileType, table_in, table_get. simpl.
    by rewrite isEmpty_all_whitespace, Hf, Hkey. }
  assert (models.templateContent.mandatory (prop obj "template") = true)
    as Hm.
  { unfold models.templateContent.mandatory.
    rewrite Hmc, Hme, Hmf, Hencoding_nonblank. simpl.
    by rewrite !isEmpty_all_whitespace, Hc, Hf. }
  rewrite template_when_fields_present by done. simpl.
  destruct (fileConversion_nonblank (VStr fileType) (VStr "pdf"))
    as (s' & o & [= <-] & [= <-] & Hconv).
  { simpl. by rewrite isEmpty_all_whitespace, Hf. }
  { reflexivity. }
  unfold conversion_phase, size_phase, fileType_failure, encodingType_failure.
  rewrite Hmc, Hme, Hmf, Hout, Hconv, HfileType, Hencoding.
  unfold table_get. rewrite Hkey.
  change (toLowerCase "pdf") with "pdf".
  rewrite (bool_decide_eq_true_2 _ Hpdf). simpl.
  destruct (size_by_plan (VStr content) (VStr encodingType) limit w z
              Hcontent Hencoding Hz Hpos) as [Hverdict _].
  destruct (models.templateContent.size _ _ _ w) as [verdict w'].
  simpl in Hverdict. rewrite Hverdict, Hplan. simpl.
  by destruct (Z.leb_spec (Z.of_nat (length (Buffer_from (VStr content)
                                               (VStr encodingType)))) z);
    [|lia].
Qed.

(** X16: when the value [init] resolved did not parse, the limit it
    leaves behind never parses to a byte count either, so a request that
    passes every field check reaches the size check, is turned away by it
    without any file operation, and finds the size-limit entry in every
    list it is returned. *)
Theorem unparsable_limit_rejects_uploads (options : jsval)
    (env : option string) (st : module_state) (obj : object) (w : world) :
  bytes_parse (resolved_maxFileSize options env) = None →
  bytes_parse VNull = None →
  modelValidation.carbone obj = [] →
  models.templateContent.mandatory (prop obj "template") = true →
  models.templateContent.fileType
    (member (prop obj "template") "fileType") = true →
  models.templateContent.encodingType
    (member (prop obj "template") "encodingType") = true →
  (modelValidation.template obj (maxFileSize (init options env st).2) w).2 = w
  ∧ ∀ errors,
      (modelValidation.template obj (maxFileSize (init options env st).2) w).1
      = Ok errors →
      size_entry VNull ∈ errors.
Proof.
  intros Hresolved Hnull Hbase Hm Hft He.
  rewrite init_parses_once. simpl. rewrite Hresolved. simpl.
  rewrite template_when_fields_present by done. simpl.
  unfold size_phase, fileType_failure, encodingType_failure.
  rewrite Hft, He. simpl.
  rewrite size_keeps_world_when_not_positive by by rewrite Hnull.
  split; [done|]. simpl.
  destruct (conversion_phase obj); [|done].
  intros errors [= <-]. set_solver.
Qed.

(** X17: the limit [init] resolved is the limit the size check enforces:
    when the resolved value parses to a byte count of at least one (and
    [bytes.parse] hands a number back unchanged), content that passes the
    size check's preconditions is accepted exactly when no file
    operation fails and the decoded bytes are at most that count. *)
Theorem init_limit_is_enforced (options : jsval) (env : option string)
    (st : module_state) (content encoding : jsval) (w : world) (z : Z) :
  bytes_parse (resolved_maxFileSize options env) = Some (Num z) →
  bytes_parse (VNum (Num z)) = Some (Num z) →
  (1 ≤ z)%Z →
  models.templateContent.content content = true →
  models.templateContent.encodingType encoding = true →
  (models.templateContent.size content encoding
     (maxFileSize (init options env st).2) w).1
  = Ok (fault_free 3 (faults w)
        && (Z.of_nat (length (Buffer_from content encoding)) <=? z)%Z).
Proof.
  intros Hresolved Hnumber Hpos Hc He.
  rewrite init_parses_once. simpl. rewrite Hresolved. simpl.
  by destruct (size_by_plan content encoding (VNum (Num z)) w z
                 Hc He Hnumber Hpos) as [-> _].
Qed.

End Outcomes.

Lemma unknown_fileType_reported_twice_witness :
  @modelValidation.template sample_externals
    (upload_body "hello" "binary" "exe") (VStr "25MB") empty_world
  = (Ok [ValueError (VStr "exe") "Invalid value `template.fileType`.";
         ValuesError [VStr "exe"; VStr "pdf"]
           "Unsupported file type conversion. A dictionary of supported input and output file types can be found at API endpoint '/fileTypes'"],
     empty_world).
Proof.
  apply (@unknown_fileType_reported_twice sample_externals
           (upload_body "hello" "binary" "exe") (VStr "25MB") empty_world
           "exe"); reflexivity.
Defined.

Lemma well_formed_upload_accepted_witness :
  (@modelValidation.template sample_externals
     (upload_body "hello" "hex" "DocX") (VStr "1KB") empty_world).1
  = Ok [].
Proof.
  apply (@well_formed_upload_accepted sample_externals
           "hello" "hex" "DocX" (VStr "1KB") empty_world
           ["doc"; "docx"; "html"; "odt"; "pdf"; "rtf"; "txt"] 1024%Z);
    try reflexivity; try lia.
  - set_solver.
  - set_solver.
  - vm_compute. discriminate.
Defined.

Lemma unparsable_limit_rejects_uploads_witness :
  (@modelValidation.template sample_externals
     (upload_body "hello" "binary" "docx")
     (maxFileSize
        (@init sample_externals (VObj {[ "maxFileSize" := VStr "abc" ]}) None
           (@initial_state sample_externals)).2)
     (World ∅ [true] [])).2
  = World ∅ [true] [].
Proof.
  apply (@unparsable_limit_rejects_uploads sample_externals
           (VObj {[ "maxFileSize" := VStr "abc" ]}) None
           (@initial_state sample_externals)
           (upload_body "hello" "binary" "docx") (World ∅ [true] []));
    reflexivity.
Defined.

Lemma init_limit_is_enforced_witness :
  (@models.templateContent.size sample_externals
     (VStr "hello") (VStr "binary")
     (maxFileSize
        (@init sample_externals (VObj {[ "max-file-size" := VStr "1KB" ]})
           (Some "2KB") (@initial_state sample_externals)).2)
     empty_world).1
  = Ok true.
Proof.
  apply (@init_limit_is_enforced sample_externals
           (VObj {[ "max-file-size" := VStr "1KB" ]}) (Some "2KB")
           (@initial_state sample_externals) (VStr "hello") (VStr "binary")
           empty_world 1024%Z);
    [reflexivity|reflexivity|lia|reflexivity|reflexivity].
Defined.

(** *** The template validator against the specified algorithm *)

Section AgainstAlgorithm.

Context `{Externals}.

(** Away from the inherited names the conversion check, on two non-blank
    strings, answers what the specification expects. *)
Lemma fileConversion_nonblank_expected (input output : jsval) :
  validatorUtils.isNonEmptyString input = true →
  validatorUtils.isNonEmptyString output = true →
  (∀ s, input = VStr s → table_get (toLowerCase s) ≠ Inherited) →
  models.templateContent.fileConversion input output
  = Ok (fileConversion_expected (as_type input) (as_type output)).
Proof.
  intros (c & s & ->)%nonblank_is_string (d & o & ->)%nonblank_is_string Hown.
  specialize (Hown _ eq_refl).
  unfold models.templateContent.fileConversion. simpl.
  simpl in Hown. unfold table_get in *.
  destruct (fileTypes !! String (lower_char c) (toLowerCase s)); simpl;
    [reflexivity|].
  destruct (bool_decide _); [done|reflexivity].
Qed.

(** The specified algorithm once the mandatory fields are there. *)
Lemma algorithm_when_fields_present (obj : object) (limit : jsval)
    (w : world) :
  modelValidation.carbone obj = [] →
  models.templateContent.mandatory (prop obj "template") = true →
  template_algorithm obj limit w
  = (Ok (fileType_failure (prop obj "template")
         ++ encodingType_failure (prop obj "template")
         ++ (size_phase obj limit w).1
         ++ (if fileConversion_expected
                  (as_type (member (prop obj "template") "fileType"))
                  (as_type (modelValidation.outputFileType obj))
             then []
             else [conversion_entry (prop obj "template")
                     (modelValidation.outputFileType obj)]))%list,
     (size_phase obj limit w).2).
Proof.
  intros Hbase Hm.
  destruct (mandatory_fields _ Hm) as (Ht & Hc & _ & _).
  unfold template_algorithm, size_phase, content_failure.
  rewrite Hbase, Ht, Hm, Hc. simpl.
  unfold fileType_failure, encodingType_failure.
  destruct (models.templateContent.fileType _),
    (models.templateContent.encodingType _); simpl; try reflexivity.
  destruct (models.templateContent.size _ _ _ w) as [[[|]|] w']; reflexivity.
Qed.

(** C1, at a file type that names what every object inherits: the
    specified algorithm returns a list that holds the conversion entry
    (the table lists no conversion for that type), the template validator
    ends with a TypeError instead. *)
Theorem template_departs_from_algorithm (limit : jsval) (w : world) :
  fileTypes !! "constructor" = None →
  (modelValidation.template (upload_body "hello" "binary" "constructor")
     limit w).1
  = Throw TypeError
  ∧ ∃ errors,
      (template_algorithm (upload_body "hello" "binary" "constructor")
         limit w).1
      = Ok errors
      ∧ conversion_entry
          (prop (upload_body "hello" "binary" "constructor") "template")
          (VStr "pdf")
        ∈ errors.
Proof.
  intros Hown.
  assert (table_get "constructor" = Inherited) as Hget.
  { unfold table_get. by rewrite Hown. }
  assert (modelValidation.carbone (upload_body "hello" "binary" "constructor")
          = []) as Hbase by reflexivity.
  assert (models.templateContent.mandatory
            (prop (upload_body "hello" "binary" "constructor") "template")
          = true) as Hm by reflexivity.
  split.
  - rewrite template_when_fields_present by done. simpl.
    unfold conversion_phase.
    change (models.templateContent.fileConversion _ _)
      with (models.templateContent.fileConversion
              (VStr "constructor") (VStr "pdf")).
    unfold models.templateContent.fileConversion. simpl.
    match goal with
    | |- context [table_get ?k] => change k with "constructor"
    end.
    by rewrite Hget.
  - rewrite algorithm_when_fields_present by done. simpl.
    eexists. split; [reflexivity|].
    change (fileConversion_expected _ _)
      with (fileConversion_expected (Some "constructor") (Some "pdf")).
    unfold fileConversion_expected. simpl.
    match goal with
    | |- context [fileTypes !! ?k] => change k with "constructor"
    end.
    rewrite Hown. set_solver.
Qed.

(** X18: for every payload whose file type, lower-cased, is not a name
    the table merely inherits, the template validator does what the
    specified algorithm does: the base list as it is when it has entries;
    otherwise the plain-object check, the mandatory-fields check, the
    three field checks with every failure collected, the size check
    exactly when none of them failed, and the conversion entry exactly
    when the table does not list the output type for the file type. *)
Theorem template_follows_algorithm_on_own_types (obj : object)
    (limit : jsval) (w : world) :
  (∀ s, member (prop obj "template") "fileType" = VStr s →
        table_get (toLowerCase s) ≠ Inherited) →
  modelValidation.template obj limit w = template_algorithm obj limit w.
Proof.
  intros Hown.
  destruct (modelValidation.carbone obj) as [|e0 l0] eqn:Hbase.
  2: { rewrite template_when_base_fails by by rewrite Hbase.
       unfold template_algorithm. by rewrite Hbase. }
  destruct (models.templateContent.mandatory (prop obj "template")) eqn:Hm.
  2: { rewrite template_when_mandatory_fails by done.
       unfold template_algorithm. rewrite Hbase, Hm.
       by destruct (models.template _). }
  rewrite template_when_fields_present, algorithm_when_fields_present by done.
  destruct (mandatory_fields _ Hm) as (_ & _ & _ & Hft).
  unfold conversion_phase.
  rewrite (fileConversion_nonblank_expected _ _ Hft
             (outputFileType_nonblank _ Hbase) Hown).
  by destruct (fileConversion_expected _ _).
Qed.

End AgainstAlgorithm.

Lemma template_departs_from_algorithm_witness :
  (@modelValidation.template sample_externals
     (upload_body "hello" "binary" "constructor") (VStr "25MB") empty_world).1
  = Throw TypeError.
Proof.
  apply (@template_departs_from_algorithm sample_externals
           (VStr "25MB") empty_world).
  reflexivity.
Defined.

Lemma template_follows_algorithm_on_own_types_witness :
  @modelValidation.template sample_externals
    (upload_body "hello" "binary" "exe") (VStr "25MB") empty_world
  = @template_algorithm sample_externals
      (upload_body "hello" "binary" "exe") (VStr "25MB") empty_world.
Proof.
  apply (@template_follows_algorithm_on_own_types sample_externals).
  intros s [= <-]. discriminate.
Defined.
